(** * Cart totals and order cancellation of the delivery back end

    A shallow embedding of [models/Cart.js], [models/Product.js],
    [routers/cart.js] (coupon routes) and [routers/order.js] (cancel
    route), with the properties the specification states about them.

    JavaScript numbers are IEEE 754 binary64 values: they are modelled by
    Rocq's primitive floats, whose operations are the processor's.  A
    mongoose document is a record, a method that mutates [this] and may
    throw is a state transformer with a completion, and a collection is a
    finite map from the key the routes look documents up by. *)

From Stdlib Require Import ZArith Floats.
From stdpp Require Import gmap strings list.

Set Warnings "-inexact-float".

(** ** JavaScript numbers *)

Module JS.

(** [ToBoolean] on a number: [+0], [-0] and [NaN] are falsy. *)
Definition truthy (x : float) : bool :=
  match classify x with
  | PZero | NZero | NaN => false
  | _ => true
  end.

(** [a || b] on numbers. *)
Definition or (a b : float) : float := if truthy a then a else b.

(** The strings [Number.prototype.toFixed(2)] returns, by shape:
    ["NaN"], ["Infinity"] and ["-Infinity"], the [ToString] of a number
    of magnitude at least 10^21, and a sign followed by the digits of an
    integer [n] with a point before the last two. *)
Inductive fixed : Type :=
| FixNaN
| FixInf (neg : bool)
| FixSci (x : float)
| FixDec (neg : bool) (n : Z).

(** The integer [n] for which [n / 100 - m * 2^e] is as close to zero as
    possible, the larger one when there are two. *)
Definition nearest_hundredth (m : positive) (e : Z) : Z :=
  match e with
  | Zneg k => (200 * Zpos m + 2 ^ Zpos k) / 2 ^ (Zpos k + 1)
  | _ => 100 * Zpos m * 2 ^ e
  end.

Definition toFixed2 (x : float) : fixed :=
  match Prim2SF x with
  | S754_nan => FixNaN
  | S754_infinity s => FixInf s
  | S754_zero _ => FixDec false 0
  | S754_finite s m e =>
      if (1e21 <=? abs x)%float then FixSci x
      else FixDec s (nearest_hundredth m e)
  end.

(** [parseFloat] on those strings: the number nearest to the decimal. *)
Definition parseFloat (s : fixed) : float :=
  match s with
  | FixNaN => nan
  | FixInf neg => if neg then neg_infinity else infinity
  | FixSci x => x
  | FixDec neg n =>
      match n with
      | Zpos p =>
          SF2Prim (SFdiv prec emax (S754_finite neg p 0) (S754_finite false 100 0))
      | _ => if neg then neg_zero else zero
      end
  end.

End JS.

(** ** models/Product.js *)

Module Product.

Record t : Type := {
  _id : string;
  name : string;
  price : float;
  image : option string;
  inStock : bool;
  stockQuantity : float;
  discountPercentage : float;
}.

(** The [discountedPrice] virtual. *)
Definition discountedPrice (this : t) : float :=
  (price this * (1 - discountPercentage this / 100))%float.

End Product.

(** ** models/Cart.js *)

Module Cart.

Record item : Type := {
  product : string;
  name : string;
  price : float;
  discountedPrice : float;
  quantity : float;
  image : option string;
}.

(** [couponCode] is [None] when the field is unset or [null]. *)
Record cart : Type := {
  user : string;
  items : list item;
  subtotal : float;
  tax : float;
  shippingCost : float;
  total : float;
  couponCode : option string;
  couponDiscount : float;
}.

Definition set_quantity (q : float) (i : item) : item :=
  {| product := product i; name := name i; price := price i;
     discountedPrice := discountedPrice i; quantity := q; image := image i |}.

Definition set_items (v : list item) (c : cart) : cart :=
  {| user := user c; items := v; subtotal := subtotal c; tax := tax c;
     shippingCost := shippingCost c; total := total c;
     couponCode := couponCode c; couponDiscount := couponDiscount c |}.

Definition set_subtotal (v : float) (c : cart) : cart :=
  {| user := user c; items := items c; subtotal := v; tax := tax c;
     shippingCost := shippingCost c; total := total c;
     couponCode := couponCode c; couponDiscount := couponDiscount c |}.

Definition set_tax (v : float) (c : cart) : cart :=
  {| user := user c; items := items c; subtotal := subtotal c; tax := v;
     shippingCost := shippingCost c; total := total c;
     couponCode := couponCode c; couponDiscount := couponDiscount c |}.

Definition set_shippingCost (v : float) (c : cart) : cart :=
  {| user := user c; items := items c; subtotal := subtotal c; tax := tax c;
     shippingCost := v; total := total c;
     couponCode := couponCode c; couponDiscount := couponDiscount c |}.

Definition set_total (v : float) (c : cart) : cart :=
  {| user := user c; items := items c; subtotal := subtotal c; tax := tax c;
     shippingCost := shippingCost c; total := v;
     couponCode := couponCode c; couponDiscount := couponDiscount c |}.

Definition set_couponCode (v : option string) (c : cart) : cart :=
  {| user := user c; items := items c; subtotal := subtotal c; tax := tax c;
     shippingCost := shippingCost c; total := total c;
     couponCode := v; couponDiscount := couponDiscount c |}.

Definition set_couponDiscount (v : float) (c : cart) : cart :=
  {| user := user c; items := items c; subtotal := subtotal c; tax := tax c;
     shippingCost := shippingCost c; total := total c;
     couponCode := couponCode c; couponDiscount := v |}.

(** *** Methods: state transformers on [this] that return or throw *)

Inductive completion (A : Type) : Type :=
| Return (a : A)
| Throw (message : string).
Arguments Return {A} a.
Arguments Throw {A} message.

Definition method (A : Type) : Type := cart → completion A * cart.

Definition ret {A} (a : A) : method A := λ this, (Return a, this).

Definition bind {A B} (m : method A) (k : A → method B) : method B :=
  λ this,
    match m this with
    | (Return a, this') => k a this'
    | (Throw e, this') => (Throw e, this')
    end.

Definition this : method cart := λ c, (Return c, c).
Definition assign (f : cart → cart) : method unit := λ c, (Return (), f c).
Definition throw {A} (message : string) : method A := λ c, (Throw message, c).

Notation "x <- m ;; k" := (bind m (λ x, k))
  (at level 100, m at next level, right associativity).
Notation "m ;; k" := (bind m (λ _, k))
  (at level 100, right associativity).

(** [Array.prototype.findIndex] with the predicate
    [item.product.toString() === id]: the first index, or -1. *)
Definition findIndex (id : string) (l : list item) : Z :=
  match list_find (λ i, product i = id) l with
  | Some (k, _) => Z.of_nat k
  | None => -1
  end.

(** [l.splice(k, 1)] *)
Definition splice1 (k : Z) (l : list item) : list item :=
  delete (Z.to_nat k) l.

Definition calculateTotals : method cart :=
  let TAX_RATE := 0.08%float in
  let SHIPPING_THRESHOLD := 50%float in
  let BASE_SHIPPING := 5.99%float in
  c <- this;;
  assign (set_subtotal
    (fold_left (λ sum i, sum + discountedPrice i * quantity i)%float (items c) 0%float));;
  c <- this;;
  assign (set_subtotal (JS.parseFloat (JS.toFixed2 (subtotal c))));;
  c <- this;;
  assign (set_shippingCost
    (if (SHIPPING_THRESHOLD <? subtotal c)%float then 0%float else BASE_SHIPPING));;
  c <- this;;
  assign (set_tax (JS.parseFloat (JS.toFixed2 (subtotal c * TAX_RATE)%float)));;
  c <- this;;
  assign (set_total (JS.parseFloat (JS.toFixed2
    (subtotal c + tax c + shippingCost c - couponDiscount c)%float)));;
  this.

(** [quantity] is [None] when the caller leaves the argument out. *)
Definition addItem (productData : Product.t) (quantity : option float) : method cart :=
  let quantity := default 1%float quantity in
  c <- this;;
  let existingItemIndex := findIndex (Product._id productData) (items c) in
  (if (-1 <? existingItemIndex)%Z then
     assign (set_items
       (alter (λ i, set_quantity (Cart.quantity i + quantity)%float i)
              (Z.to_nat existingItemIndex) (items c)))
   else
     assign (set_items (items c ++ [
       {| product := Product._id productData;
          name := Product.name productData;
          price := Product.price productData;
          discountedPrice :=
            JS.or (Product.discountedPrice productData) (Product.price productData);
          quantity := quantity;
          image := Product.image productData |} ])));;
  calculateTotals.

Definition updateItemQuantity (productId : string) (quantity : float) : method cart :=
  c <- this;;
  let itemIndex := findIndex productId (items c) in
  (if (itemIndex =? -1)%Z then throw "Item not found in cart" else ret ());;
  (if (quantity <=? 0)%float then
     assign (set_items (splice1 itemIndex (items c)))
   else
     assign (set_items
       (alter (set_quantity quantity) (Z.to_nat itemIndex) (items c))));;
  calculateTotals.

Definition removeItem (productId : string) : method cart :=
  c <- this;;
  let itemIndex := findIndex productId (items c) in
  (if (itemIndex =? -1)%Z then throw "Item not found in cart" else ret ());;
  assign (set_items (splice1 itemIndex (items c)));;
  calculateTotals.

Definition clearCart : method cart :=
  assign (set_items []);;
  assign (set_subtotal 0%float);;
  assign (set_tax 0%float);;
  assign (set_shippingCost 0%float);;
  assign (set_total 0%float);;
  assign (set_couponCode None);;
  assign (set_couponDiscount 0%float);;
  this.

(** *** The collection, one cart per user *)

Definition create (userId : string) : cart :=
  {| user := userId; items := []; subtotal := 0; tax := 0; shippingCost := 0;
     total := 0; couponCode := None; couponDiscount := 0 |}.

(** [cart.save()]: the document is written back under the key (the
    owning user, which is unique) it was loaded or created by. *)
Definition save (userId : string) (c : cart) (db : gmap string cart)
  : gmap string cart :=
  <[userId := c]> db.

Definition findOrCreateByUser (userId : string) (db : gmap string cart)
  : cart * gmap string cart :=
  match db !! userId with
  | Some c => (c, db)
  | None => let c := create userId in (c, save userId c db)
  end.

End Cart.

(** ** HTTP responses *)

Module Http.

Inductive body (A : Type) : Type :=
| Json (doc : A)
| Message (message : string)
| Errors (errors : list string).
Arguments Json {A} doc.
Arguments Message {A} message.
Arguments Errors {A} errors.

Record response (A : Type) : Type := { status : nat; payload : body A }.
Arguments status {A} r.
Arguments payload {A} r.

(** [res.json(doc)] answers 200; [res.status(n).json(...)] answers [n]. *)
Definition json {A} (doc : A) : response A := {| status := 200; payload := Json doc |}.
Definition fail {A} (n : nat) (message : string) : response A :=
  {| status := n; payload := Message message |}.
Definition invalid {A} (errors : list string) : response A :=
  {| status := 400; payload := Errors errors |}.

End Http.

(** ** express-validator, on the values the routes check

    A body field checked with [isInt] is taken to be a JSON number. *)

Module Validator.

(** [String(x)] is an optional sign and a run of digits exactly when [x] is
    a whole number of magnitude below 10^21. *)
Definition whole (x : float) : bool :=
  match Prim2SF x with
  | S754_zero _ => true
  | S754_finite _ m e =>
      (abs x <? 1e21)%float &&
      match e with
      | Zneg k => (Zpos m mod 2 ^ Zpos k =? 0)%Z
      | _ => true
      end
  | _ => false
  end.

(** [isInt({ min })] *)
Definition isInt (min x : float) : bool := whole x && (min <=? x)%float.

End Validator.

(** ** The body of the checkout answer

    [cartId] and [timestamp] (an identifier and the clock) are left out. *)

Module Checkout.

Record orderData : Type := {
  items : list Cart.item;
  subtotal : float;
  tax : float;
  shippingCost : float;
  couponDiscount : float;
  total : float;
}.

Record receipt : Type := { message : string; order : orderData }.

End Checkout.

(** ** routers/cart.js: the coupon routes

    [userId] is [req.user.id], set by the authentication middleware, and
    [couponCode] is [req.body.couponCode]. *)

Module CartRouter.
Import Cart.

(** POST /cart/apply-coupon *)
Definition applyCoupon (userId couponCode : string) (db : gmap string cart)
  : Http.response cart * gmap string cart :=
  if decide (couponCode = "") then
    (Http.invalid ["Coupon code is required"], db)
  else
    let '(cart, db) := findOrCreateByUser userId db in
    if decide (couponCode = "WELCOME10") then
      let cart := set_couponCode (Some couponCode) cart in
      let cart :=
        set_couponDiscount (JS.parseFloat (JS.toFixed2 (subtotal cart * 0.1)%float)) cart in
      let cart := (calculateTotals cart).2 in
      let db := save userId cart db in
      (Http.json cart, db)
    else if decide (couponCode = "FREESHIP") then
      let cart := set_couponCode (Some couponCode) cart in
      let cart := set_couponDiscount (shippingCost cart) cart in
      let cart := (calculateTotals cart).2 in
      let db := save userId cart db in
      (Http.json cart, db)
    else
      (Http.fail 400 "Invalid coupon code", db).

(** DELETE /cart/coupon *)
Definition removeCoupon (userId : string) (db : gmap string cart)
  : Http.response cart * gmap string cart :=
  let '(cart, db) := findOrCreateByUser userId db in
  let cart := set_couponCode None cart in
  let cart := set_couponDiscount 0%float cart in
  let cart := (calculateTotals cart).2 in
  let db := save userId cart db in
  (Http.json cart, db).

(** *** The other routes of routers/cart.js *)

(** GET /cart *)
Definition getCart (userId : string) (db : gmap string cart)
  : Http.response cart * gmap string cart :=
  let '(cart, db) := findOrCreateByUser userId db in
  (Http.json cart, db).

(** The [catch] of the item routes. *)
Definition itemError {A} (message : string) : Http.response A :=
  if decide (message = "Item not found in cart") then Http.fail 404 message
  else Http.fail 500 "Server error".

(** POST /cart/items, with [products] the product collection keyed by
    identifier. *)
Definition postItem (userId productId : string) (quantity : float)
    (products : gmap string Product.t) (db : gmap string cart)
  : Http.response cart * gmap string cart :=
  let errors :=
    (if decide (productId = "") then ["Product ID is required"] else [])
    ++ (if Validator.isInt 1 quantity then [] else ["Quantity must be at least 1"]) in
  match errors with
  | _ :: _ => (Http.invalid errors, db)
  | [] =>
      match products !! productId with
      | None => (Http.fail 404 "Product not found", db)
      | Some product =>
          if negb (Product.inStock product)
             || (JS.truthy (Product.stockQuantity product)
                 && (Product.stockQuantity product <? quantity)%float)
          then
            (Http.fail 400 "Product is out of stock or has insufficient quantity", db)
          else
            let '(cart, db) := findOrCreateByUser userId db in
            match addItem product (Some quantity) cart with
            | (Return _, cart) =>
                let db := save userId cart db in
                (Http.json cart, db)
            | (Throw _, _) => (Http.fail 500 "Server error", db)
            end
      end
  end.

(** PATCH /cart/items/:productId *)
Definition patchItem (userId productId : string) (quantity : float)
    (db : gmap string cart)
  : Http.response cart * gmap string cart :=
  if Validator.isInt 0 quantity then
    let '(cart, db) := findOrCreateByUser userId db in
    match updateItemQuantity productId quantity cart with
    | (Return _, cart) =>
        let db := save userId cart db in
        (Http.json cart, db)
    | (Throw message, _) => (itemError message, db)
    end
  else
    (Http.invalid ["Quantity must be 0 or greater"], db).

(** DELETE /cart/items/:productId *)
Definition deleteItem (userId productId : string) (db : gmap string cart)
  : Http.response cart * gmap string cart :=
  let '(cart, db) := findOrCreateByUser userId db in
  match removeItem productId cart with
  | (Return _, cart) =>
      let db := save userId cart db in
      (Http.json cart, db)
  | (Throw message, _) => (itemError message, db)
  end.

(** DELETE /cart *)
Definition clear (userId : string) (db : gmap string cart)
  : Http.response cart * gmap string cart :=
  let '(cart, db) := findOrCreateByUser userId db in
  match clearCart cart with
  | (Return _, cart) =>
      let db := save userId cart db in
      (Http.json cart, db)
  | (Throw _, _) => (Http.fail 500 "Server error", db)
  end.

(** POST /cart/checkout *)
Definition checkout (userId : string) (db : gmap string cart)
  : Http.response Checkout.receipt * gmap string cart :=
  let '(cart, db) := findOrCreateByUser userId db in
  if (Z.of_nat (length (items cart)) =? 0)%Z then
    (Http.fail 400 "Cart is empty", db)
  else
    let orderData :=
      {| Checkout.items := items cart;
         Checkout.subtotal := subtotal cart;
         Checkout.tax := tax cart;
         Checkout.shippingCost := shippingCost cart;
         Checkout.couponDiscount := couponDiscount cart;
         Checkout.total := total cart |} in
    match clearCart cart with
    | (Return _, cart) =>
        let db := save userId cart db in
        (Http.json {| Checkout.message := "Checkout successful";
                      Checkout.order := orderData |}, db)
    | (Throw _, _) => (Http.fail 500 "Server error", db)
    end.

End CartRouter.

(** ** models/Order.js and the cancel route of routers/order.js *)

Module Order.

(** The values of the [status] and [paymentStatus] enums. *)
Inductive Status : Type := Processing | InTransit | Delivered | Cancelled.

Inductive PaymentStatus : Type := Pending | Completed | Failed | Refunded.

Record t : Type := {
  userId : string;
  status : Status;
  paymentStatus : PaymentStatus;
  total : float;
  trackingNumber : option string;
}.

Definition set_status (s : Status) (o : t) : t :=
  {| userId := userId o; status := s; paymentStatus := paymentStatus o;
     total := total o; trackingNumber := trackingNumber o |}.

#[export] Instance Status_eq_dec : EqDecision Status.
Proof. solve_decision. Defined.

End Order.

Module OrderRouter.
Import Order.

(** POST /orders/:id/cancel, with [reqUserId] the authenticated caller.
    The collection is keyed by order identifier. *)
Definition cancel (reqUserId id : string) (db : gmap string Order.t)
  : Http.response Order.t * gmap string Order.t :=
  match db !! id with
  | None => (Http.fail 404 "Order not found", db)
  | Some order =>
      if decide (userId order ≠ reqUserId) then
        (Http.fail 403 "Unauthorized", db)
      else if decide (status order = Delivered) then
        (Http.fail 400 "Cannot cancel a delivered order", db)
      else
        let order := set_status Cancelled order in
        let db := <[id := order]> db in
        (Http.json order, db)
  end.

(** *** The read and status routes of routers/order.js *)

(** The value of the [status] enum a string spells, if any. *)
Definition statusOf (s : string) : option Status :=
  if decide (s = "Processing") then Some Processing
  else if decide (s = "In Transit") then Some InTransit
  else if decide (s = "Delivered") then Some Delivered
  else if decide (s = "Cancelled") then Some Cancelled
  else None.

(** GET /orders/:id *)
Definition getOrder (reqUserId id : string) (db : gmap string Order.t)
  : Http.response Order.t :=
  match db !! id with
  | None => Http.fail 404 "Order not found"
  | Some order =>
      if decide (userId order ≠ reqUserId) then Http.fail 403 "Unauthorized"
      else Http.json order
  end.

(** PATCH /orders/:id/status, with [newStatus] the body's [status]. *)
Definition patchStatus (reqUserId id newStatus : string) (db : gmap string Order.t)
  : Http.response Order.t * gmap string Order.t :=
  let errors :=
    (if decide (id = "") then ["Order ID is required"] else [])
    ++ (if statusOf newStatus is Some _ then [] else ["Invalid status"]) in
  match errors, statusOf newStatus with
  | [], Some s =>
      match db !! id with
      | None => (Http.fail 404 "Order not found", db)
      | Some order =>
          if decide (userId order ≠ reqUserId) then
            (Http.fail 403 "Unauthorized", db)
          else
            let order := set_status s order in
            let db := <[id := order]> db in
            (Http.json order, db)
      end
  | _, _ => (Http.invalid errors, db)
  end.

End OrderRouter.

(** ** The specification's words

    Definitions that follow the specification rather than the code, to be
    compared with the code's. *)

Module Spec.
Import Cart.

(** Rounding to two decimal places, as the code does it. *)
Definition round2 (x : float) : float := JS.parseFloat (JS.toFixed2 x).


(** discountedPrice × quantity of a line item. *)
Definition line (i : item) : float := (discountedPrice i * quantity i)%float.

(** The sum of a list of numbers, accumulated from 0 in list order. *)
Definition sum (l : list float) : float := fold_left add l 0%float.

(** Steps 1 to 4 of the pricing algorithm. *)
Definition subtotal_of (l : list item) : float := round2 (sum (map line l)).
Definition shipping_of (subtotal : float) : float :=
  if (50 <? subtotal)%float then 0%float else 5.99%float.
Definition tax_of (subtotal : float) : float := round2 (subtotal * 0.08)%float.
Definition total_of (subtotal tax shippingCost couponDiscount : float) : float :=
  round2 (subtotal + tax + shippingCost - couponDiscount)%float.


(** The cart with its totals recomputed by steps 1 to 4. *)
Definition priced (c : cart) : cart :=
  let st := subtotal_of (items c) in
  let sh := shipping_of st in
  let tx := tax_of st in
  {| user := user c; items := items c; subtotal := st; tax := tx;
     shippingCost := sh; total := total_of st tx sh (couponDiscount c);
     couponCode := couponCode c; couponDiscount := couponDiscount c |}.


(** What the order routes may change between two states of the
    collection: nothing but the status of the order named. *)
Definition order_kept (id : string) (db db' : gmap string Order.t) : Prop :=
  (∀ id', id' ≠ id → db' !! id' = db !! id') ∧
  (db !! id = None → db' !! id = None) ∧
  (∀ o, db !! id = Some o →
     ∃ o', db' !! id = Some o' ∧
           Order.userId o' = Order.userId o ∧
           Order.total o' = Order.total o ∧
           Order.paymentStatus o' = Order.paymentStatus o ∧
           Order.trackingNumber o' = Order.trackingNumber o).

End Spec.

(** ** Sample data *)

Module Examples.
Import Cart.

Definition line (pid : string) (dp q : float) : item :=
  {| product := pid; name := pid; price := dp; discountedPrice := dp;
     quantity := q; image := None |}.

Definition cart_of (l : list item) : cart :=
  {| user := "u1"; items := l; subtotal := 0; tax := 0; shippingCost := 0;
     total := 0; couponCode := None; couponDiscount := 0 |}.

Definition goods (pid : string) (price pct : float) : Product.t :=
  {| Product._id := pid; Product.name := pid; Product.price := price;
     Product.image := None; Product.inStock := true;
     Product.stockQuantity := 10; Product.discountPercentage := pct |}.

Definition basket : cart := cart_of [line "a" 10 2; line "b" 5 1].

Definition carts : gmap string cart := {[ "u1" := basket ]}.

Definition order (owner : string) (s : Order.Status) : Order.t :=
  {| Order.userId := owner; Order.status := s;
     Order.paymentStatus := Order.Pending; Order.total := 64.8;
     Order.trackingNumber := None |}.

End Examples.

(** * Properties *)

Import Cart.

(** ** Running the methods *)

Lemma fold_lines (l : list item) (acc : float) :
  fold_left (λ sum i, sum + discountedPrice i * quantity i)%float l acc
  = fold_left add (map Spec.line l) acc.
Proof.
  revert acc. induction l as [|i l IH]; intros acc; simpl; [reflexivity|].
  apply IH.
Qed.

Lemma calculateTotals_run (c : cart) :
  calculateTotals c = (Return (Spec.priced c), Spec.priced c).
Proof.
  unfold calculateTotals, bind, this, assign; simpl.
  rewrite fold_lines. reflexivity.
Qed.


(** Two numbers that a comparison tells apart are different. *)
Lemma float_neq_by_ltb (k x y : float) :
  (x <? k)%float ≠ (y <? k)%float → x ≠ y.
Proof. intros Hne Heq. apply Hne. rewrite Heq. reflexivity. Qed.

(** ** Rounding *)


Lemma addItem_run (p : Product.t) (q : option float) (c : cart) :
  let k := findIndex (Product._id p) (items c) in
  let l :=
    if (-1 <? k)%Z then
      alter (λ i, set_quantity (quantity i + default 1 q)%float i) (Z.to_nat k) (items c)
    else
      items c ++ [ {| product := Product._id p; name := Product.name p;
                      price := Product.price p;
                      discountedPrice := JS.or (Product.discountedPrice p) (Product.price p);
                      quantity := default 1%float q; image := Product.image p |} ] in
  addItem p q c
  = (Return (Spec.priced (set_items l c)), Spec.priced (set_items l c)).
Proof.
  intros k l. unfold addItem, bind, this; simpl. fold k.
  subst l. destruct (-1 <? k)%Z; unfold assign; apply calculateTotals_run.
Qed.

Lemma updateItemQuantity_absent (pid : string) (q : float) (c : cart) :
  findIndex pid (items c) = (-1)%Z →
  updateItemQuantity pid q c = (Throw "Item not found in cart", c).
Proof.
  intros Hk. unfold updateItemQuantity, bind, this; simpl. rewrite Hk. reflexivity.
Qed.

Lemma updateItemQuantity_present (pid : string) (q : float) (c : cart) :
  findIndex pid (items c) ≠ (-1)%Z →
  let k := findIndex pid (items c) in
  let l := if (q <=? 0)%float then splice1 k (items c)
           else alter (set_quantity q) (Z.to_nat k) (items c) in
  updateItemQuantity pid q c
  = (Return (Spec.priced (set_items l c)), Spec.priced (set_items l c)).
Proof.
  intros Hk k l. unfold updateItemQuantity, bind, this; simpl. fold k.
  destruct (Z.eqb_spec k (-1)) as [E|_]; [contradiction|]. simpl.
  subst l. destruct (q <=? 0)%float; unfold assign; apply calculateTotals_run.
Qed.

Lemma removeItem_absent (pid : string) (c : cart) :
  findIndex pid (items c) = (-1)%Z →
  removeItem pid c = (Throw "Item not found in cart", c).
Proof.
  intros Hk. unfold removeItem, bind, this; simpl. rewrite Hk. reflexivity.
Qed.

Lemma removeItem_present (pid : string) (c : cart) :
  findIndex pid (items c) ≠ (-1)%Z →
  let l := splice1 (findIndex pid (items c)) (items c) in
  removeItem pid c
  = (Return (Spec.priced (set_items l c)), Spec.priced (set_items l c)).
Proof.
  intros Hk l. unfold removeItem, bind, this; simpl.
  destruct (Z.eqb_spec (findIndex pid (items c)) (-1)) as [E|_]; [contradiction|].
  simpl. unfold assign. apply calculateTotals_run.
Qed.

Lemma clearCart_run (c : cart) :
  clearCart c = (Return (create (user c)), create (user c)).
Proof. reflexivity. Qed.


(** ** The pricing algorithm *)



(** The specification's scenario: an empty cart, then product P (price 30,
    no discount) twice: subtotal 60.00, free shipping, tax 4.80, total
    64.80; FREESHIP then discounts the shipping cost of 0 and the total
    stays 64.80. *)
Example empty_cart_then_two_P :
  let c := (addItem (Examples.goods "P" 30 0) (Some 2%float) (create "u1")).2 in
  let db := (CartRouter.applyCoupon "u1" "FREESHIP" {[ "u1" := c ]}).2 in
  subtotal c = 60%float ∧ shippingCost c = 0%float ∧ tax c = 4.8%float ∧
  total c = 64.8%float ∧
  ∃ c', db !! "u1" = Some c' ∧ couponDiscount c' = 0%float ∧
        total c' = 64.8%float.
Proof.
  repeat apply conj; try reflexivity.
  eexists. split; [vm_compute; reflexivity|]. split; reflexivity.
Qed.

(** ** Totals are recomputed by every mutation *)



(** ** Looking a product up in the item list *)

Lemma findIndex_absent (pid : string) (l : list item) :
  findIndex pid l = (-1)%Z ↔ Forall (λ i, product i ≠ pid) l.
Proof.
  unfold findIndex.
  destruct (list_find (λ i, product i = pid) l) as [[k i]|] eqn:Hf; split.
  - lia.
  - intros H.
    apply (list_find_None (λ i, product i = pid)) in H. congruence.
  - intros _. apply (list_find_None (λ i, product i = pid)). exact Hf.
  - reflexivity.
Qed.

Lemma findIndex_present (pid : string) (l : list item) :
  findIndex pid l ≠ (-1)%Z ↔
  ∃ k i, findIndex pid l = Z.of_nat k ∧ l !! k = Some i ∧ product i = pid ∧
         ∀ j y, l !! j = Some y → j < k → product y ≠ pid.
Proof.
  unfold findIndex.
  destruct (list_find (λ i, product i = pid) l) as [[k i]|] eqn:Hf; split.
  - intros _. apply list_find_Some in Hf as (Hk & Hi & Hfirst).
    exists k, i. auto.
  - lia.
  - done.
  - intros (k & i & Hk & _). lia.
Qed.

Lemma findIndex_elem_of (pid : string) (l : list item) (i : item) :
  i ∈ l → product i = pid → findIndex pid l ≠ (-1)%Z.
Proof.
  intros Hin Hp Habs. apply findIndex_absent in Habs.
  rewrite Forall_forall in Habs. exact (Habs i Hin Hp).
Qed.

Lemma findIndex_app_new (pid : string) (l : list item) (i : item) :
  findIndex pid l = (-1)%Z → product i = pid →
  findIndex pid (l ++ [i]) = Z.of_nat (length l).
Proof.
  intros Habs Hp. unfold findIndex in *.
  destruct (list_find (λ i, product i = pid) l) as [[k0 i0]|] eqn:Hf; [lia|].
  rewrite (list_find_app_r _ _ _ Hf). simpl.
  rewrite decide_True by exact Hp. reflexivity.
Qed.

(** ** Comparisons with zero and truthiness *)


Lemma positive_truthy (x : float) : (0 <? x)%float = true → JS.truthy x = true.
Proof.
  unfold JS.truthy. rewrite FloatAxioms.ltb_spec, classify_spec.
  change (Prim2SF 0) with (S754_zero false).
  destruct (Prim2SF x) as [[]|[]| |[] m e];
    cbv [SFltb SFcompare SF64classify SFclassify]; try congruence.
  intros _. destruct (Z.eqb _ _); reflexivity.
Qed.

Lemma zero_falsy (x : float) : (x =? 0)%float = true → JS.truthy x = false.
Proof.
  unfold JS.truthy. rewrite FloatAxioms.eqb_spec, classify_spec.
  change (Prim2SF 0) with (S754_zero false).
  destruct (Prim2SF x) as [[]|[]| |[] m e];
    cbv [SFeqb SFcompare SF64classify SFclassify]; congruence.
Qed.

Lemma full_discount_falsy (p : Product.t) :
  Product.discountPercentage p = 100%float →
  JS.truthy (Product.discountedPrice p) = false.
Proof.
  intros Hpct. unfold Product.discountedPrice, JS.truthy. rewrite Hpct.
  change (1 - 100 / 100)%float with 0%float.
  rewrite classify_spec, mul_spec.
  change (Prim2SF 0) with (S754_zero false).
  destruct (Prim2SF (Product.price p)) as [[]|[]| |[] m e]; reflexivity.
Qed.

(** ** List surgery *)

Lemma filter_absent (pid : string) (l : list item) :
  Forall (λ i, product i ≠ pid) l → filter (λ i, product i = pid) l = [].
Proof.
  induction 1 as [|i l Hi _ IH]; [reflexivity|].
  rewrite filter_cons_False by exact Hi. exact IH.
Qed.

Lemma alter_take_drop (f : item → item) (l : list item) (k : nat) (x : item) :
  l !! k = Some x → alter f k l = take k l ++ f x :: drop (S k) l.
Proof.
  revert k. induction l as [|y l IH]; intros [|k] Hk; try discriminate.
  - injection Hk as ->. reflexivity.
  - simpl. f_equal. apply IH. exact Hk.
Qed.

(** ** Adding the same product twice *)

(** C3, as the code has it: for every cart with no line item for the
    product, [addItem] with quantity q1 and then [addItem] with quantity q2
    for the same product identifier (whatever the product data of the second
    call) leaves exactly one line item for that product, appended to the
    list, with quantity q1 + q2 and the name, price, discountedPrice and
    image captured by the first call. *)
Theorem addItem_twice_accumulates
    (c : cart) (p p' : Product.t) (q1 q2 : float) :
  Product._id p' = Product._id p →
  Forall (λ i, product i ≠ Product._id p) (items c) →
  let snapshot :=
    {| product := Product._id p; name := Product.name p;
       price := Product.price p;
       discountedPrice := JS.or (Product.discountedPrice p) (Product.price p);
       quantity := (q1 + q2)%float; image := Product.image p |} in
  ∃ c1 c2,
    addItem p (Some q1) c = (Return c1, c1) ∧
    addItem p' (Some q2) c1 = (Return c2, c2) ∧
    items c2 = items c ++ [snapshot] ∧
    filter (λ i, product i = Product._id p) (items c2) = [snapshot].
Proof.
  intros Hid Habs snapshot.
  pose proof (proj2 (findIndex_absent _ _) Habs) as Hk.
  set (first := set_quantity q1 snapshot).
  set (c1 := Spec.priced (set_items (items c ++ [first]) c)).
  set (c2 := Spec.priced (set_items (items c ++ [snapshot]) c1)).
  assert (H1 : addItem p (Some q1) c = (Return c1, c1)).
  { rewrite addItem_run, Hk. reflexivity. }
  assert (H2 : addItem p' (Some q2) c1 = (Return c2, c2)).
  { rewrite addItem_run. cbn [c1 Spec.priced set_items items]. rewrite Hid.
    rewrite (findIndex_app_new _ _ first Hk eq_refl).
    destruct (Z.ltb_spec (-1) (Z.of_nat (length (items c)))) as [_|Hlt]; [|lia].
    rewrite Nat2Z.id.
    rewrite alter_app_r_alt, Nat.sub_diag by lia. reflexivity. }
  exists c1, c2. repeat apply conj; try assumption; [reflexivity|].
  cbn [c2 Spec.priced set_items items].
  rewrite filter_app, (filter_absent _ _ Habs).
  simpl. rewrite filter_cons_True by reflexivity. reflexivity.
Qed.

Lemma addItem_twice_accumulates_witness :
  ∃ c1 c2,
    addItem (Examples.goods "b" 4 0) (Some 1%float)
            (Examples.cart_of [Examples.line "a" 10 1]) = (Return c1, c1) ∧
    addItem (Examples.goods "b" 5 0) (Some 2%float) c1 = (Return c2, c2) ∧
    items c2 = [Examples.line "a" 10 1; Examples.line "b" 4 3] ∧
    filter (λ i, product i = "b") (items c2) = [Examples.line "b" 4 3].
Proof.
  apply (addItem_twice_accumulates
           (Examples.cart_of [Examples.line "a" 10 1])
           (Examples.goods "b" 4 0) (Examples.goods "b" 5 0) 1 2).
  - reflexivity.
  - repeat constructor. simpl. discriminate.
Defined.

(** C3 as the specification words it fails on a cart that already holds the
    product: two calls with quantity 1 leave its line item with quantity 3. *)
Lemma addItem_twice_on_present_line :
  ∃ c1 c2,
    addItem (Examples.goods "a" 10 0) (Some 1%float)
            (Examples.cart_of [Examples.line "a" 10 1]) = (Return c1, c1) ∧
    addItem (Examples.goods "a" 10 0) (Some 1%float) c1 = (Return c2, c2) ∧
    items c2 = [Examples.line "a" 10 3] ∧
    quantity (Examples.line "a" 10 3) ≠ (1 + 1)%float.
Proof.
  pose (c1 := (addItem (Examples.goods "a" 10 0) (Some 1%float)
                       (Examples.cart_of [Examples.line "a" 10 1])).2).
  pose (c2 := (addItem (Examples.goods "a" 10 0) (Some 1%float) c1).2).
  exists c1, c2. repeat apply conj; try (vm_compute; reflexivity).
  apply (float_neq_by_ltb 2.5). vm_compute. discriminate.
Qed.

(** ** Changing a quantity *)



Example updateItemQuantity_on_sample :
  items (updateItemQuantity "b" 0
           (Examples.cart_of [Examples.line "a" 10 2; Examples.line "b" 5 1])).2
  = [Examples.line "a" 10 2] ∧
  items (updateItemQuantity "b" 7
           (Examples.cart_of [Examples.line "a" 10 2; Examples.line "b" 5 1])).2
  = [Examples.line "a" 10 2; Examples.line "b" 5 7].
Proof. split; vm_compute; reflexivity. Qed.

(** ** A product that is not in the cart *)

(** C5: for every cart and every product identifier with no line item in
    it, [removeItem] and [updateItemQuantity] (with any quantity) throw
    "Item not found in cart" and leave the cart as it was. *)
Theorem absent_item_not_found (c : cart) (pid : string) (q : float) :
  Forall (λ i, product i ≠ pid) (items c) →
  removeItem pid c = (Throw "Item not found in cart", c) ∧
  updateItemQuantity pid q c = (Throw "Item not found in cart", c).
Proof.
  intros Habs. apply findIndex_absent in Habs. split.
  - apply removeItem_absent. exact Habs.
  - apply updateItemQuantity_absent. exact Habs.
Qed.

Lemma absent_item_not_found_witness :
  removeItem "z" (Examples.cart_of [Examples.line "a" 10 2])
  = (Throw "Item not found in cart", Examples.cart_of [Examples.line "a" 10 2]) ∧
  updateItemQuantity "z" 3 (Examples.cart_of [Examples.line "a" 10 2])
  = (Throw "Item not found in cart", Examples.cart_of [Examples.line "a" 10 2]).
Proof.
  apply (absent_item_not_found (Examples.cart_of [Examples.line "a" 10 2]) "z" 3).
  repeat constructor. simpl. discriminate.
Defined.

(** ** Coupons *)

Lemma save_after_findOrCreate (u : string) (c' : cart) (db : gmap string cart) :
  save u c' (findOrCreateByUser u db).2 = <[u := c']> db.
Proof.
  unfold findOrCreateByUser, save. destruct (db !! u); simpl; [reflexivity|].
  apply insert_insert_eq.
Qed.

Lemma applyCoupon_WELCOME10 (db : gmap string cart) (u : string) :
  ∃ c',
    CartRouter.applyCoupon u "WELCOME10" db = (Http.json c', <[u := c']> db) ∧
    couponCode c' = Some "WELCOME10" ∧
    couponDiscount c'
    = Spec.round2 (subtotal (findOrCreateByUser u db).1 * 0.1)%float.
Proof.
  unfold CartRouter.applyCoupon.
  rewrite decide_False by discriminate.
  pose proof (λ c', save_after_findOrCreate u c' db) as Hs.
  destruct (findOrCreateByUser u db) as [c db1]. cbn [fst snd] in *.
  rewrite decide_True by reflexivity. cbv zeta.
  rewrite calculateTotals_run. cbn [snd]. rewrite Hs.
  eexists. split; [reflexivity|]. split; reflexivity.
Qed.






(** The specification's examples: WELCOME10 on a subtotal of 100.00 gives a
    discount of 10.00; a FREESHIP discount of 5.99 stays 5.99 after the
    cart grows past the free-shipping threshold. *)
Example applyCoupon_on_samples :
  (∀ c, subtotal c = 100%float →
     ∃ c', CartRouter.applyCoupon "u1" "WELCOME10" {[ "u1" := c ]}
           = (Http.json c', <[ "u1" := c' ]> {[ "u1" := c ]}) ∧
           couponDiscount c' = 10%float) ∧
  (let c := (calculateTotals Examples.basket).2 in
   let db := (CartRouter.applyCoupon "u1" "FREESHIP" {[ "u1" := c ]}).2 in
   ∃ c1 c2, db !! "u1" = Some c1 ∧ couponDiscount c1 = 5.99%float ∧
            addItem (Examples.goods "c" 40 0) (Some 1%float) c1 = (Return c2, c2) ∧
            shippingCost c2 = 0%float ∧ couponDiscount c2 = 5.99%float).
Proof.
  split.
  - intros c Hc.
    destruct (applyCoupon_WELCOME10 {[ "u1" := c ]} "u1") as (c' & Hrun & _ & Hd).
    exists c'. split; [exact Hrun|]. rewrite Hd.
    unfold findOrCreateByUser. rewrite lookup_singleton_eq. simpl.
    rewrite Hc. reflexivity.
  - eexists. eexists. split; [vm_compute; reflexivity|].
    split; [reflexivity|]. split; [vm_compute; reflexivity|].
    split; reflexivity.
Qed.

(** ** Emptying the cart *)

(** C7: for every cart, [clearCart] returns and leaves no item, subtotal,
    tax, shippingCost and total 0, no coupon code and couponDiscount 0. *)
Theorem clearCart_resets (c : cart) :
  ∃ c', clearCart c = (Return c', c') ∧
        items c' = [] ∧ subtotal c' = 0%float ∧ tax c' = 0%float ∧
        shippingCost c' = 0%float ∧ total c' = 0%float ∧
        couponCode c' = None ∧ couponDiscount c' = 0%float ∧
        user c' = user c.
Proof.
  exists (create (user c)). split; [apply clearCart_run|].
  repeat split.
Qed.

(** ** Cancelling an order *)

(** C8: for every stored order, the cancel route called by the order's
    owner answers 400 exactly when the order's status is Delivered, and
    then writes nothing; from every other status (Cancelled included) it
    answers 200 with the order, stored with status Cancelled and its other
    fields as they were. *)
Theorem cancel_unless_delivered
    (db : gmap string Order.t) (id : string) (o : Order.t) :
  db !! id = Some o →
  ∃ r db',
    OrderRouter.cancel (Order.userId o) id db = (r, db') ∧
    (Http.status r = 400 ↔ Order.status o = Order.Delivered) ∧
    (Order.status o = Order.Delivered →
       r = Http.fail 400 "Cannot cancel a delivered order" ∧ db' = db) ∧
    (Order.status o ≠ Order.Delivered →
       let o' := {| Order.userId := Order.userId o;
                    Order.status := Order.Cancelled;
                    Order.paymentStatus := Order.paymentStatus o;
                    Order.total := Order.total o;
                    Order.trackingNumber := Order.trackingNumber o |} in
       r = Http.json o' ∧ db' = <[id := o']> db).
Proof.
  intros Hid. unfold OrderRouter.cancel. rewrite Hid.
  rewrite decide_False by (intros H; apply H; reflexivity).
  destruct (decide (Order.status o = Order.Delivered)) as [Hd|Hd].
  - eexists. eexists. split; [reflexivity|]. split; [|split].
    + split; intros _; [exact Hd|reflexivity].
    + intros _. split; reflexivity.
    + intros Hn. contradiction.
  - eexists. eexists. split; [reflexivity|]. split; [|split].
    + split; [discriminate|intros Hn; contradiction].
    + intros Hn. contradiction.
    + intros _. split; reflexivity.
Qed.

Lemma cancel_unless_delivered_witness :
  ∃ r db',
    OrderRouter.cancel "u1" "o1" {[ "o1" := Examples.order "u1" Order.Cancelled ]}
    = (r, db') ∧
    Http.status r = 200 ∧
    db' !! "o1" = Some (Examples.order "u1" Order.Cancelled).
Proof.
  destruct (cancel_unless_delivered
              {[ "o1" := Examples.order "u1" Order.Cancelled ]} "o1"
              (Examples.order "u1" Order.Cancelled))
    as (r & db' & Hrun & _ & _ & Hok).
  - apply lookup_singleton_eq.
  - destruct Hok as [-> ->]; [discriminate|].
    eexists. eexists. split; [exact Hrun|]. split; [reflexivity|].
    apply lookup_insert_eq.
Defined.

Example cancel_on_samples :
  Http.status (OrderRouter.cancel "u1" "o1"
                 {[ "o1" := Examples.order "u1" Order.Delivered ]}).1 = 400 ∧
  Http.status (OrderRouter.cancel "u1" "o1"
                 {[ "o1" := Examples.order "u1" Order.InTransit ]}).1 = 200 ∧
  Http.status (OrderRouter.cancel "u2" "o1"
                 {[ "o1" := Examples.order "u1" Order.Processing ]}).1 = 403 ∧
  Http.status (OrderRouter.cancel "u1" "o2"
                 {[ "o1" := Examples.order "u1" Order.Processing ]}).1 = 404.
Proof. repeat split. Qed.

(** ** The price snapshot of a new line item *)

(** C9: when [addItem] appends a line item (the product is not in the cart
    yet), the item's discountedPrice is the product's full price whenever
    the product's discountedPrice is zero, which is the case of a
    discountPercentage of 100 on a finite price (and the fallback also takes
    the price when that product of price and zero is not a number); it is
    the product's discountedPrice whenever that is above zero. *)
Theorem addItem_snapshot_fallback (c : cart) (p : Product.t) (q : float) :
  Forall (λ i, product i ≠ Product._id p) (items c) →
  ∃ c' i,
    addItem p (Some q) c = (Return c', c') ∧
    items c' = items c ++ [i] ∧
    product i = Product._id p ∧ price i = Product.price p ∧ quantity i = q ∧
    ((Product.discountedPrice p =? 0)%float = true →
       discountedPrice i = Product.price p) ∧
    (Product.discountPercentage p = 100%float →
       discountedPrice i = Product.price p) ∧
    ((0 <? Product.discountedPrice p)%float = true →
       discountedPrice i = Product.discountedPrice p).
Proof.
  intros Habs. apply findIndex_absent in Habs.
  eexists. eexists. split.
  { rewrite addItem_run, Habs. reflexivity. }
  split; [reflexivity|]. cbn [product price quantity discountedPrice].
  repeat apply conj; try reflexivity; intros H; unfold JS.or.
  - rewrite (zero_falsy _ H). reflexivity.
  - rewrite (full_discount_falsy _ H). reflexivity.
  - rewrite (positive_truthy _ H). reflexivity.
Qed.

Lemma addItem_snapshot_fallback_witness :
  (∃ c' i, addItem (Examples.goods "g" 20 100) (Some 1%float) Examples.basket
           = (Return c', c') ∧
           items c' = items Examples.basket ++ [i] ∧
           discountedPrice i = 20%float) ∧
  (∃ c' i, addItem (Examples.goods "h" 20 25) (Some 1%float) Examples.basket
           = (Return c', c') ∧
           items c' = items Examples.basket ++ [i] ∧
           discountedPrice i = 15%float).
Proof.
  split.
  - destruct (addItem_snapshot_fallback Examples.basket
                (Examples.goods "g" 20 100) 1)
      as (c' & i & Hrun & Hitems & _ & _ & _ & _ & Hfull & _).
    + repeat constructor; simpl; discriminate.
    + exists c', i. split; [exact Hrun|]. split; [exact Hitems|].
      apply Hfull. reflexivity.
  - destruct (addItem_snapshot_fallback Examples.basket
                (Examples.goods "h" 20 25) 1)
      as (c' & i & Hrun & Hitems & _ & _ & _ & _ & _ & Hpos).
    + repeat constructor; simpl; discriminate.
    + exists c', i. split; [exact Hrun|]. split; [exact Hitems|].
      rewrite Hpos; reflexivity.
Defined.

(** ** Removing the last item *)

(** C10: for every cart with exactly one line item and no coupon, removing
    that item with [removeItem], or with [updateItemQuantity] and quantity
    0, leaves no item, subtotal 0, tax 0, shippingCost 5.99 and total 5.99,
    whereas [clearCart] leaves no item, shippingCost 0 and total 0. *)
Theorem last_item_removed_pays_shipping
    (u : string) (i : item) (st tx sh tot : float) :
  let c := {| user := u; items := [i]; subtotal := st; tax := tx;
              shippingCost := sh; total := tot;
              couponCode := None; couponDiscount := 0 |} in
  (∃ c', removeItem (product i) c = (Return c', c') ∧
         items c' = [] ∧ subtotal c' = 0%float ∧ tax c' = 0%float ∧
         shippingCost c' = 5.99%float ∧ total c' = 5.99%float) ∧
  (∃ c', updateItemQuantity (product i) 0 c = (Return c', c') ∧
         items c' = [] ∧ subtotal c' = 0%float ∧ tax c' = 0%float ∧
         shippingCost c' = 5.99%float ∧ total c' = 5.99%float) ∧
  (∃ c', clearCart c = (Return c', c') ∧
         items c' = [] ∧ shippingCost c' = 0%float ∧ total c' = 0%float).
Proof.
  intros c.
  assert (Hk : findIndex (product i) (items c) = 0%Z).
  { unfold findIndex. simpl. rewrite decide_True by reflexivity. reflexivity. }
  assert (Hne : findIndex (product i) (items c) ≠ (-1)%Z) by (rewrite Hk; lia).
  split; [|split].
  - eexists. split.
    + rewrite (removeItem_present _ _ Hne), Hk. reflexivity.
    + repeat split.
  - eexists. split.
    + rewrite (updateItemQuantity_present _ _ _ Hne), Hk. reflexivity.
    + repeat split.
  - eexists. split; [apply clearCart_run|]. repeat split.
Qed.

(** * Further properties of the cart methods *)

(** ** Recalculation *)

(** X1: [calculateTotals] is idempotent, and the cart every successful
    [addItem], [updateItemQuantity] or [removeItem] leaves is one it would
    not change. *)
Theorem calculateTotals_idempotent :
  (∀ c, calculateTotals (calculateTotals c).2 = calculateTotals c) ∧
  (∀ c p q, calculateTotals (addItem p q c).2 = addItem p q c) ∧
  (∀ c pid q r c',
     updateItemQuantity pid q c = (Return r, c') →
     calculateTotals c' = (Return c', c')) ∧
  (∀ c pid r c',
     removeItem pid c = (Return r, c') → calculateTotals c' = (Return c', c')).
Proof.
  split; [|split; [|split]].
  - intros c. rewrite !calculateTotals_run. reflexivity.
  - intros c p q. rewrite addItem_run, calculateTotals_run. reflexivity.
  - intros c pid q r c' H.
    destruct (decide (findIndex pid (items c) = (-1)%Z)) as [E|E].
    + rewrite (updateItemQuantity_absent _ _ _ E) in H. discriminate.
    + rewrite (updateItemQuantity_present _ _ _ E) in H.
      injection H as _ <-. rewrite calculateTotals_run. reflexivity.
  - intros c pid r c' H.
    destruct (decide (findIndex pid (items c) = (-1)%Z)) as [E|E].
    + rewrite (removeItem_absent _ _ E) in H. discriminate.
    + rewrite (removeItem_present _ _ E) in H.
      injection H as _ <-. rewrite calculateTotals_run. reflexivity.
Qed.

Lemma calculateTotals_idempotent_witness :
  calculateTotals (updateItemQuantity "a" 3 Examples.basket).2
  = (Return (updateItemQuantity "a" 3 Examples.basket).2,
     (updateItemQuantity "a" 3 Examples.basket).2) ∧
  calculateTotals (removeItem "b" Examples.basket).2
  = (Return (removeItem "b" Examples.basket).2,
     (removeItem "b" Examples.basket).2).
Proof.
  destruct calculateTotals_idempotent as (_ & _ & Hupd & Hrem).
  split.
  - apply (Hupd Examples.basket "a" 3%float
             (updateItemQuantity "a" 3 Examples.basket).2).
    vm_compute. reflexivity.
  - apply (Hrem Examples.basket "b" (removeItem "b" Examples.basket).2).
    vm_compute. reflexivity.
Defined.

(** ** A quantity of zero or less is a removal *)

Lemma updateItemQuantity_as_removeItem (c : cart) (pid : string) (q : float) :
  (q <=? 0)%float = true → updateItemQuantity pid q c = removeItem pid c.
Proof.
  intros Hq.
  destruct (decide (findIndex pid (items c) = (-1)%Z)) as [E|E].
  - rewrite (updateItemQuantity_absent _ _ _ E), (removeItem_absent _ _ E).
    reflexivity.
  - rewrite (updateItemQuantity_present _ _ _ E), (removeItem_present _ _ E), Hq.
    reflexivity.
Qed.

(** X2: on every cart, [updateItemQuantity] with a quantity of zero or less
    does exactly what [removeItem] does, the failure on a missing product
    included. *)
Theorem updateItemQuantity_nonpositive_is_removeItem
    (c : cart) (pid : string) (q : float) :
  (q <=? 0)%float = true →
  updateItemQuantity pid q c = removeItem pid c.
Proof.
  intros Hq.
  destruct (decide (findIndex pid (items c) = (-1)%Z)) as [E|E].
  - rewrite (updateItemQuantity_absent _ _ _ E), (removeItem_absent _ _ E).
    reflexivity.
  - rewrite (updateItemQuantity_present _ _ _ E), (removeItem_present _ _ E), Hq.
    reflexivity.
Qed.

Lemma updateItemQuantity_nonpositive_is_removeItem_witness :
  updateItemQuantity "a" (-2) Examples.basket = removeItem "a" Examples.basket.
Proof.
  apply (updateItemQuantity_nonpositive_is_removeItem Examples.basket "a" (-2)).
  reflexivity.
Defined.

(** ** Adding a product the cart already holds *)



Example addItem_present_on_sample :
  items (addItem (Examples.goods "a" 99 50) (Some 3%float) Examples.basket).2
  = [Examples.line "a" 10 5; Examples.line "b" 5 1].
Proof. vm_compute. reflexivity. Qed.

(** ** The lines of other products *)

Lemma filter_other_alter (pid : string) (f : item → item) (l : list item)
    (k : nat) (x : item) :
  l !! k = Some x → product x = pid → product (f x) = pid →
  filter (λ i, product i ≠ pid) (alter f k l) = filter (λ i, product i ≠ pid) l.
Proof.
  intros Hk Hx Hfx. rewrite (alter_take_drop _ _ _ _ Hk).
  rewrite <- (take_drop_middle _ _ _ Hk) at 3.
  rewrite !filter_app.
  rewrite !filter_cons_False by (intros H; apply H; assumption).
  reflexivity.
Qed.

Lemma filter_other_delete (pid : string) (l : list item) (k : nat) (x : item) :
  l !! k = Some x → product x = pid →
  filter (λ i, product i ≠ pid) (delete k l) = filter (λ i, product i ≠ pid) l.
Proof.
  intros Hk Hx. rewrite delete_take_drop.
  rewrite <- (take_drop_middle _ _ _ Hk) at 3.
  rewrite !filter_app.
  rewrite filter_cons_False by (intros H; apply H; assumption).
  reflexivity.
Qed.

Lemma filter_other_snoc (pid : string) (l : list item) (x : item) :
  product x = pid →
  filter (λ i, product i ≠ pid) (l ++ [x]) = filter (λ i, product i ≠ pid) l.
Proof.
  intros Hx. rewrite filter_app.
  rewrite filter_cons_False by (intros H; apply H; assumption).
  apply app_nil_r.
Qed.

(** X4: [addItem], [updateItemQuantity] and [removeItem] never add, drop,
    change or reorder the line items of any product other than the one they
    are called for, whether they return or throw. *)
Theorem other_products_untouched
    (c : cart) (p : Product.t) (q : option float) (pid : string) (q' : float) :
  filter (λ i, product i ≠ Product._id p) (items (addItem p q c).2)
  = filter (λ i, product i ≠ Product._id p) (items c) ∧
  filter (λ i, product i ≠ pid) (items (updateItemQuantity pid q' c).2)
  = filter (λ i, product i ≠ pid) (items c) ∧
  filter (λ i, product i ≠ pid) (items (removeItem pid c).2)
  = filter (λ i, product i ≠ pid) (items c).
Proof.
  split; [|split].
  - rewrite addItem_run. cbn [snd Spec.priced set_items items].
    destruct (decide (findIndex (Product._id p) (items c) = (-1)%Z)) as [E|E].
    + rewrite E. apply filter_other_snoc. reflexivity.
    + destruct (proj1 (findIndex_present _ _) E) as (k & i0 & Hk & Hi0 & Hp0 & _).
      rewrite Hk.
      destruct (Z.ltb_spec (-1) (Z.of_nat k)) as [_|Hlt]; [|lia].
      rewrite Nat2Z.id. apply (filter_other_alter _ _ _ _ _ Hi0 Hp0). exact Hp0.
  - destruct (decide (findIndex pid (items c) = (-1)%Z)) as [E|E].
    + rewrite (updateItemQuantity_absent _ _ _ E). reflexivity.
    + rewrite (updateItemQuantity_present _ _ _ E).
      cbn [snd Spec.priced set_items items].
      destruct (proj1 (findIndex_present _ _) E) as (k & i0 & Hk & Hi0 & Hp0 & _).
      rewrite Hk. unfold splice1. rewrite Nat2Z.id.
      destruct (q' <=? 0)%float.
      * apply (filter_other_delete _ _ _ _ Hi0 Hp0).
      * apply (filter_other_alter _ _ _ _ _ Hi0 Hp0). exact Hp0.
  - destruct (decide (findIndex pid (items c) = (-1)%Z)) as [E|E].
    + rewrite (removeItem_absent _ _ E). reflexivity.
    + rewrite (removeItem_present _ _ E).
      cbn [snd Spec.priced set_items items].
      destruct (proj1 (findIndex_present _ _) E) as (k & i0 & Hk & Hi0 & Hp0 & _).
      rewrite Hk. unfold splice1. rewrite Nat2Z.id.
      apply (filter_other_delete _ _ _ _ Hi0 Hp0).
Qed.

(** ** One line item per product *)

Lemma products_alter (f : item → item) (l : list item) (k : nat) :
  (∀ x, product (f x) = product x) →
  product <$> alter f k l = product <$> l.
Proof.
  intros Hf. rewrite (list_fmap_alter product f id).
  - apply list_alter_id. reflexivity.
  - apply Forall_forall. intros x _. apply Hf.
Qed.

Lemma products_delete_NoDup (l : list item) (k : nat) :
  NoDup (product <$> l) → NoDup (product <$> delete k l).
Proof.
  intros Hnd. rewrite list_fmap_delete.
  exact (sublist_NoDup _ _ Hnd (sublist_delete _ _)).
Qed.

Lemma products_snoc_NoDup (l : list item) (x : item) :
  findIndex (product x) l = (-1)%Z →
  NoDup (product <$> l) → NoDup (product <$> l ++ [x]).
Proof.
  intros Habs Hnd. apply findIndex_absent in Habs.
  rewrite fmap_app. apply NoDup_app. repeat split.
  - exact Hnd.
  - intros pid Hin Hx. apply list_elem_of_singleton in Hx.
    apply list_elem_of_fmap in Hin as (y & -> & Hy).
    rewrite Forall_forall in Habs. exact (Habs y Hy Hx).
  - apply NoDup_singleton.
Qed.

(** X5: a cart in which no two line items are for the same product stays
    so through [addItem], [updateItemQuantity] and [removeItem]. *)
Theorem one_line_per_product_kept
    (c : cart) (p : Product.t) (q : option float) (pid : string) (q' : float) :
  NoDup (product <$> items c) →
  NoDup (product <$> items (addItem p q c).2) ∧
  NoDup (product <$> items (updateItemQuantity pid q' c).2) ∧
  NoDup (product <$> items (removeItem pid c).2).
Proof.
  intros Hnd. split; [|split].
  - rewrite addItem_run. cbn [snd Spec.priced set_items items].
    destruct (Z.ltb_spec (-1) (findIndex (Product._id p) (items c))) as [Hlt|Hge].
    + rewrite products_alter by reflexivity. exact Hnd.
    + apply products_snoc_NoDup; [|exact Hnd]. cbn [product].
      destruct (decide (findIndex (Product._id p) (items c) = (-1)%Z)) as [E|E];
        [exact E|].
      destruct (proj1 (findIndex_present _ _) E) as (k & _ & Hk & _). lia.
  - destruct (decide (findIndex pid (items c) = (-1)%Z)) as [E|E].
    + rewrite (updateItemQuantity_absent _ _ _ E). exact Hnd.
    + rewrite (updateItemQuantity_present _ _ _ E).
      cbn [snd Spec.priced set_items items].
      destruct (q' <=? 0)%float.
      * apply products_delete_NoDup. exact Hnd.
      * rewrite products_alter by reflexivity. exact Hnd.
  - destruct (decide (findIndex pid (items c) = (-1)%Z)) as [E|E].
    + rewrite (removeItem_absent _ _ E). exact Hnd.
    + rewrite (removeItem_present _ _ E).
      cbn [snd Spec.priced set_items items].
      apply products_delete_NoDup. exact Hnd.
Qed.

Lemma one_line_per_product_kept_witness :
  NoDup (product <$>
           items (addItem (Examples.goods "c" 7 0) None Examples.basket).2) ∧
  NoDup (product <$> items (updateItemQuantity "a" 4 Examples.basket).2) ∧
  NoDup (product <$> items (removeItem "a" Examples.basket).2).
Proof.
  apply (one_line_per_product_kept Examples.basket
           (Examples.goods "c" 7 0) None "a" 4).
  apply NoDup_ListNoDup. repeat constructor; simpl; intuition discriminate.
Defined.

(** X6: in a cart with one line item per product, a product that has been
    removed is gone: [removeItem] returns the first time and throws "Item
    not found in cart", changing nothing, the second time. *)
Theorem removeItem_twice_fails (c : cart) (pid : string) (i : item) :
  NoDup (product <$> items c) → i ∈ items c → product i = pid →
  ∃ c1, removeItem pid c = (Return c1, c1) ∧
        removeItem pid c1 = (Throw "Item not found in cart", c1).
Proof.
  intros Hnd Hin Hp.
  pose proof (findIndex_elem_of _ _ _ Hin Hp) as Hne.
  destruct (proj1 (findIndex_present _ _) Hne) as (k & i0 & Hk & Hi0 & Hp0 & _).
  eexists. split; [apply (removeItem_present _ _ Hne)|].
  apply removeItem_absent. cbn [Spec.priced set_items items].
  apply findIndex_absent, Forall_forall. intros y Hy Hyp.
  rewrite Hk in Hy. unfold splice1 in Hy. rewrite Nat2Z.id in Hy.
  apply list_elem_of_lookup in Hy as (j & Hj).
  assert (Hkp : (product <$> items c) !! k = Some pid)
    by (rewrite list_lookup_fmap, Hi0; simpl; congruence).
  destruct (decide (j < k)) as [Hlt|Hge].
  - rewrite list_lookup_delete_lt in Hj by exact Hlt.
    assert (Hjp : (product <$> items c) !! j = Some pid)
      by (rewrite list_lookup_fmap, Hj; simpl; congruence).
    pose proof (NoDup_lookup _ _ _ _ Hnd Hjp Hkp). lia.
  - rewrite list_lookup_delete_ge in Hj by lia.
    assert (Hjp : (product <$> items c) !! S j = Some pid)
      by (rewrite list_lookup_fmap, Hj; simpl; congruence).
    pose proof (NoDup_lookup _ _ _ _ Hnd Hjp Hkp). lia.
Qed.

Lemma removeItem_twice_fails_witness :
  ∃ c1, removeItem "a" Examples.basket = (Return c1, c1) ∧
        removeItem "a" c1 = (Throw "Item not found in cart", c1).
Proof.
  apply (removeItem_twice_fails Examples.basket "a" (Examples.line "a" 10 2)).
  - apply NoDup_ListNoDup. repeat constructor; simpl; intuition discriminate.
  - apply list_elem_of_In. simpl. auto.
  - reflexivity.
Defined.

(** * Properties of the cart routes *)

(** ** Finding or creating the caller's cart *)

Lemma findOrCreate_lookup (u : string) (db : gmap string cart) :
  (findOrCreateByUser u db).2 !! u = Some (findOrCreateByUser u db).1.
Proof.
  unfold findOrCreateByUser, save. destruct (db !! u) eqn:Hu; simpl.
  - exact Hu.
  - apply lookup_insert_eq.
Qed.

Lemma findOrCreate_other (u u' : string) (db : gmap string cart) :
  u' ≠ u → (findOrCreateByUser u db).2 !! u' = db !! u'.
Proof.
  intros Hne. unfold findOrCreateByUser, save. destruct (db !! u); simpl.
  - reflexivity.
  - apply lookup_insert_ne. congruence.
Qed.

Lemma findOrCreate_again (u : string) (db : gmap string cart) :
  findOrCreateByUser u (findOrCreateByUser u db).2 = findOrCreateByUser u db.
Proof.
  pose proof (findOrCreate_lookup u db) as Hl.
  destruct (findOrCreateByUser u db) as [c db1]. simpl in *.
  unfold findOrCreateByUser. rewrite Hl. reflexivity.
Qed.

Lemma findOrCreate_found (u : string) (c : cart) (db : gmap string cart) :
  db !! u = Some c → findOrCreateByUser u db = (c, db).
Proof. intros Hu. unfold findOrCreateByUser. rewrite Hu. reflexivity. Qed.



(** ** Adding an item through the route *)






(** ** Changing and removing an item through the routes *)

Lemma patchItem_valid (u pid : string) (q : float) (db : gmap string cart) :
  Validator.isInt 0 q = true →
  CartRouter.patchItem u pid q db
  = match updateItemQuantity pid q (findOrCreateByUser u db).1 with
    | (Return _, c') => (Http.json c', <[u := c']> db)
    | (Throw message, _) =>
        (CartRouter.itemError message, (findOrCreateByUser u db).2)
    end.
Proof.
  intros Hq. unfold CartRouter.patchItem. rewrite Hq.
  pose proof (λ c', save_after_findOrCreate u c' db) as Hs.
  destruct (findOrCreateByUser u db) as [c db1]. simpl in *.
  destruct (updateItemQuantity pid q c) as [[r|m] c']; [|reflexivity].
  rewrite Hs. reflexivity.
Qed.

Lemma deleteItem_run (u pid : string) (db : gmap string cart) :
  CartRouter.deleteItem u pid db
  = match removeItem pid (findOrCreateByUser u db).1 with
    | (Return _, c') => (Http.json c', <[u := c']> db)
    | (Throw message, _) =>
        (CartRouter.itemError message, (findOrCreateByUser u db).2)
    end.
Proof.
  unfold CartRouter.deleteItem.
  pose proof (λ c', save_after_findOrCreate u c' db) as Hs.
  destruct (findOrCreateByUser u db) as [c db1]. simpl in *.
  destruct (removeItem pid c) as [[r|m] c']; [|reflexivity].
  rewrite Hs. reflexivity.
Qed.

(** X10: PATCH /cart/items/:productId with a quantity the validation lets
    through and that is not above zero (that is, 0) answers and stores
    exactly what DELETE /cart/items/:productId does, on every collection. *)
Theorem patchItem_zero_is_deleteItem
    (u pid : string) (q : float) (db : gmap string cart) :
  Validator.isInt 0 q = true → (q <=? 0)%float = true →
  CartRouter.patchItem u pid q db = CartRouter.deleteItem u pid db.
Proof.
  intros Hv Hq.
  rewrite (patchItem_valid _ _ _ _ Hv), deleteItem_run.
  rewrite (updateItemQuantity_as_removeItem _ _ _ Hq). reflexivity.
Qed.

Lemma patchItem_zero_is_deleteItem_witness :
  CartRouter.patchItem "u1" "a" 0 Examples.carts
  = CartRouter.deleteItem "u1" "a" Examples.carts.
Proof.
  apply (patchItem_zero_is_deleteItem "u1" "a" 0 Examples.carts); reflexivity.
Defined.

(** X11: when the caller's cart (as found, or as created empty) has no line
    item for the product, DELETE /cart/items/:productId and a valid PATCH
    both answer 404 "Item not found in cart" and save nothing: a caller who
    had a cart finds the collection as it was, a caller who had none is
    left with the new empty cart.  A PATCH whose quantity is not a whole
    number of at least 0 answers 400 before any cart is looked up. *)
Theorem item_routes_not_found
    (u pid : string) (q : float) (db : gmap string cart) :
  Forall (λ i, product i ≠ pid) (items (findOrCreateByUser u db).1) →
  CartRouter.deleteItem u pid db
  = (Http.fail 404 "Item not found in cart", (findOrCreateByUser u db).2) ∧
  (Validator.isInt 0 q = true →
     CartRouter.patchItem u pid q db
     = (Http.fail 404 "Item not found in cart", (findOrCreateByUser u db).2)) ∧
  (Validator.isInt 0 q = false →
     CartRouter.patchItem u pid q db
     = (Http.invalid ["Quantity must be 0 or greater"], db)) ∧
  (∀ c, db !! u = Some c → (findOrCreateByUser u db).2 = db) ∧
  (db !! u = None → (findOrCreateByUser u db).2 = <[u := create u]> db).
Proof.
  intros Habs. apply findIndex_absent in Habs. repeat apply conj.
  - rewrite deleteItem_run, (removeItem_absent _ _ Habs). reflexivity.
  - intros Hv.
    rewrite (patchItem_valid _ _ _ _ Hv), (updateItemQuantity_absent _ _ _ Habs).
    reflexivity.
  - intros Hv. unfold CartRouter.patchItem. rewrite Hv. reflexivity.
  - intros c Hu. rewrite (findOrCreate_found _ _ _ Hu). reflexivity.
  - intros Hu. unfold findOrCreateByUser. rewrite Hu. reflexivity.
Qed.

Lemma item_routes_not_found_witness :
  CartRouter.deleteItem "u1" "z" Examples.carts
  = (Http.fail 404 "Item not found in cart", Examples.carts) ∧
  CartRouter.deleteItem "u2" "a" Examples.carts
  = (Http.fail 404 "Item not found in cart",
     <[ "u2" := create "u2" ]> Examples.carts).
Proof.
  split.
  - destruct (item_routes_not_found "u1" "z" 1 Examples.carts)
      as (Hdel & _).
    + rewrite (findOrCreate_found "u1" Examples.basket) by apply lookup_singleton_eq.
      repeat constructor; simpl; discriminate.
    + rewrite Hdel. reflexivity.
  - destruct (item_routes_not_found "u2" "a" 1 Examples.carts)
      as (Hdel & _).
    + constructor.
    + rewrite Hdel. reflexivity.
Defined.

(** ** Checking out *)

Lemma checkout_run (u : string) (db : gmap string cart) :
  CartRouter.checkout u db
  = let c := (findOrCreateByUser u db).1 in
    match items c with
    | [] => (Http.fail 400 "Cart is empty", (findOrCreateByUser u db).2)
    | _ :: _ =>
        (Http.json
           {| Checkout.message := "Checkout successful";
              Checkout.order :=
                {| Checkout.items := items c; Checkout.subtotal := subtotal c;
                   Checkout.tax := tax c;
                   Checkout.shippingCost := shippingCost c;
                   Checkout.couponDiscount := couponDiscount c;
                   Checkout.total := total c |} |},
         <[u := create (user c)]> db)
    end.
Proof.
  unfold CartRouter.checkout.
  pose proof (λ c', save_after_findOrCreate u c' db) as Hs.
  destruct (findOrCreateByUser u db) as [c db1]. simpl in *.
  destruct (items c) as [|i l] eqn:Hi; [reflexivity|].
  simpl. rewrite Hs. reflexivity.
Qed.

(** X12: POST /cart/checkout answers 400 "Cart is empty" and saves nothing
    when the caller's cart has no item; otherwise it answers 200 with the
    items and the five totals exactly as they were stored (nothing is
    recomputed) and stores a cart with no item, zero totals and no coupon.
    Hence a checkout that directly follows a checkout, or a DELETE /cart,
    always answers 400. *)
Theorem checkout_outcomes (u : string) (db : gmap string cart) :
  (items (findOrCreateByUser u db).1 = [] →
     CartRouter.checkout u db
     = (Http.fail 400 "Cart is empty", (findOrCreateByUser u db).2)) ∧
  (items (findOrCreateByUser u db).1 ≠ [] →
     ∃ receipt,
       CartRouter.checkout u db
       = (Http.json receipt,
          <[u := create (user (findOrCreateByUser u db).1)]> db) ∧
       Checkout.items (Checkout.order receipt)
       = items (findOrCreateByUser u db).1 ∧
       Checkout.subtotal (Checkout.order receipt)
       = subtotal (findOrCreateByUser u db).1 ∧
       Checkout.tax (Checkout.order receipt) = tax (findOrCreateByUser u db).1 ∧
       Checkout.shippingCost (Checkout.order receipt)
       = shippingCost (findOrCreateByUser u db).1 ∧
       Checkout.couponDiscount (Checkout.order receipt)
       = couponDiscount (findOrCreateByUser u db).1 ∧
       Checkout.total (Checkout.order receipt)
       = total (findOrCreateByUser u db).1) ∧
  Http.status (CartRouter.checkout u (CartRouter.checkout u db).2).1 = 400 ∧
  Http.status (CartRouter.checkout u (CartRouter.clear u db).2).1 = 400.
Proof.
  repeat apply conj.
  - intros He. rewrite checkout_run. simpl. rewrite He. reflexivity.
  - intros Hne. rewrite checkout_run. simpl.
    destruct (items (findOrCreateByUser u db).1) as [|i l] eqn:Hi;
      [contradiction|].
    eexists. split; [reflexivity|]. rewrite <- Hi. repeat split.
  - rewrite (checkout_run u db). simpl.
    destruct (items (findOrCreateByUser u db).1) as [|i l] eqn:Hi; simpl.
    + rewrite checkout_run. simpl. rewrite findOrCreate_again, Hi. reflexivity.
    + rewrite checkout_run. simpl.
      rewrite (findOrCreate_found u (create (user (findOrCreateByUser u db).1)))
        by apply lookup_insert_eq.
      reflexivity.
  - unfold CartRouter.clear.
    pose proof (λ c', save_after_findOrCreate u c' db) as Hs.
    destruct (findOrCreateByUser u db) as [c db1]. simpl in *.
    rewrite Hs, checkout_run. simpl.
    rewrite (findOrCreate_found u (create (user c))) by apply lookup_insert_eq.
    reflexivity.
Qed.

Lemma checkout_outcomes_witness :
  (∃ receipt,
     CartRouter.checkout "u1" Examples.carts
     = (Http.json receipt, <[ "u1" := create "u1" ]> Examples.carts) ∧
     Checkout.items (Checkout.order receipt) = items Examples.basket) ∧
  CartRouter.checkout "u2" Examples.carts
  = (Http.fail 400 "Cart is empty", <[ "u2" := create "u2" ]> Examples.carts).
Proof.
  split.
  - destruct (checkout_outcomes "u1" Examples.carts) as (_ & Hfull & _).
    destruct Hfull as (receipt & Hrun & Hitems & _).
    + rewrite (findOrCreate_found "u1" Examples.basket) by apply lookup_singleton_eq.
      discriminate.
    + rewrite (findOrCreate_found "u1" Examples.basket) in Hrun, Hitems
        by apply lookup_singleton_eq.
      exists receipt. split; [exact Hrun|exact Hitems].
  - destruct (checkout_outcomes "u2" Examples.carts) as (Hempty & _).
    rewrite Hempty by reflexivity. reflexivity.
Defined.

(** ** A coupon leaves no trace once removed *)

Lemma removeCoupon_run (u : string) (db : gmap string cart) :
  let c' := Spec.priced
              (set_couponDiscount 0%float
                 (set_couponCode None (findOrCreateByUser u db).1)) in
  CartRouter.removeCoupon u db = (Http.json c', <[u := c']> db).
Proof.
  intros c'. unfold CartRouter.removeCoupon.
  pose proof (λ c', save_after_findOrCreate u c' db) as Hs. subst c'.
  destruct (findOrCreateByUser u db) as [c db1]. cbn [fst snd] in *.
  cbv zeta. rewrite calculateTotals_run. cbn [snd]. rewrite Hs. reflexivity.
Qed.

Lemma removeCoupon_after_save (u : string) (c c1 : cart) (db : gmap string cart) :
  items c1 = items c → user c1 = user c →
  CartRouter.removeCoupon u (<[u := c1]> db)
  = (Http.json (Spec.priced (set_couponDiscount 0%float (set_couponCode None c))),
     <[u := Spec.priced (set_couponDiscount 0%float (set_couponCode None c))]> db).
Proof.
  intros Hi Hu. rewrite removeCoupon_run.
  rewrite (findOrCreate_found u c1) by apply lookup_insert_eq.
  rewrite insert_insert_eq.
  unfold Spec.priced; simpl. rewrite Hi, Hu. reflexivity.
Qed.

(** X13: DELETE /cart/coupon after POST /cart/apply-coupon, whatever the
    code sent (accepted, unknown or empty), answers and stores exactly what
    DELETE /cart/coupon alone would have: the coupon code and discount are
    gone and the totals are those of the items. *)
Theorem removeCoupon_undoes_applyCoupon
    (u code : string) (db : gmap string cart) :
  CartRouter.removeCoupon u (CartRouter.applyCoupon u code db).2
  = CartRouter.removeCoupon u db.
Proof.
  rewrite (removeCoupon_run u db). cbv zeta.
  unfold CartRouter.applyCoupon.
  destruct (decide (code = "")) as [_|_].
  { simpl. rewrite removeCoupon_run. reflexivity. }
  pose proof (λ c', save_after_findOrCreate u c' db) as Hs.
  pose proof (findOrCreate_again u db) as Ha.
  destruct (findOrCreateByUser u db) as [c db1]. cbn [fst snd] in *.
  destruct (decide (code = "WELCOME10")) as [_|_];
    [|destruct (decide (code = "FREESHIP")) as [_|_]]; cbv zeta.
  - rewrite calculateTotals_run. cbn [snd]. rewrite Hs.
    apply removeCoupon_after_save; reflexivity.
  - rewrite calculateTotals_run. cbn [snd]. rewrite Hs.
    apply removeCoupon_after_save; reflexivity.
  - cbn [snd]. rewrite removeCoupon_run, Ha. cbn [fst snd].
    rewrite Hs. reflexivity.
Qed.

(** ** Every cart route writes the caller's cart only *)

Lemma insert_other (u u' : string) (c : cart) (db : gmap string cart) :
  u' ≠ u → <[u := c]> db !! u' = db !! u'.
Proof. intros Hne. apply lookup_insert_ne. congruence. Qed.

(** X14: no route of the cart router changes, creates or removes the cart
    of a user other than the caller, whatever the request and its
    outcome. *)
Theorem cart_routes_touch_only_the_caller
    (u u' : string) (db : gmap string cart) :
  u' ≠ u →
  (CartRouter.getCart u db).2 !! u' = db !! u' ∧
  (∀ pid q products,
     (CartRouter.postItem u pid q products db).2 !! u' = db !! u') ∧
  (∀ pid q, (CartRouter.patchItem u pid q db).2 !! u' = db !! u') ∧
  (∀ pid, (CartRouter.deleteItem u pid db).2 !! u' = db !! u') ∧
  (∀ code, (CartRouter.applyCoupon u code db).2 !! u' = db !! u') ∧
  (CartRouter.removeCoupon u db).2 !! u' = db !! u' ∧
  (CartRouter.clear u db).2 !! u' = db !! u' ∧
  (CartRouter.checkout u db).2 !! u' = db !! u'.
Proof.
  intros Hne.
  pose proof (findOrCreate_other u u' db Hne) as Hfoc.
  repeat apply conj.
  - unfold CartRouter.getCart.
    destruct (findOrCreateByUser u db) as [c db1]. exact Hfoc.
  - intros pid q products. unfold CartRouter.postItem.
    destruct (_ ++ _); [|reflexivity].
    destruct (products !! pid) as [p|]; [|reflexivity].
    destruct (negb _ || _); [reflexivity|].
    destruct (findOrCreateByUser u db) as [c db1].
    destruct (addItem p (Some q) c) as [[r|m] c']; simpl in *; [|exact Hfoc].
    unfold save. rewrite insert_other by exact Hne. exact Hfoc.
  - intros pid q. unfold CartRouter.patchItem.
    destruct (Validator.isInt 0 q); [|reflexivity].
    destruct (findOrCreateByUser u db) as [c db1].
    destruct (updateItemQuantity pid q c) as [[r|m] c']; simpl in *; [|exact Hfoc].
    unfold save. rewrite insert_other by exact Hne. exact Hfoc.
  - intros pid. unfold CartRouter.deleteItem.
    destruct (findOrCreateByUser u db) as [c db1].
    destruct (removeItem pid c) as [[r|m] c']; simpl in *; [|exact Hfoc].
    unfold save. rewrite insert_other by exact Hne. exact Hfoc.
  - intros code. unfold CartRouter.applyCoupon.
    destruct (decide (code = "")); [reflexivity|].
    destruct (findOrCreateByUser u db) as [c db1].
    repeat case_decide; simpl in *; try exact Hfoc;
      unfold save; rewrite insert_other by exact Hne; exact Hfoc.
  - rewrite removeCoupon_run. simpl. apply insert_other. exact Hne.
  - unfold CartRouter.clear.
    destruct (findOrCreateByUser u db) as [c db1]. simpl in *.
    unfold save. rewrite insert_other by exact Hne. exact Hfoc.
  - rewrite checkout_run. simpl.
    destruct (items _); simpl; [exact Hfoc|]. apply insert_other. exact Hne.
Qed.

Lemma cart_routes_touch_only_the_caller_witness :
  (CartRouter.checkout "u2" Examples.carts).2 !! "u1" = Some Examples.basket ∧
  (CartRouter.clear "u2" Examples.carts).2 !! "u1" = Some Examples.basket.
Proof.
  destruct (cart_routes_touch_only_the_caller "u2" "u1" Examples.carts)
    as (_ & _ & _ & _ & _ & _ & Hclear & Hcheckout); [discriminate|].
  split.
  - rewrite Hcheckout. apply lookup_singleton_eq.
  - rewrite Hclear. apply lookup_singleton_eq.
Defined.

(** * Properties of the order routes *)

Lemma patchStatus_valid
    (u id s : string) (st : Order.Status) (db : gmap string Order.t) :
  id ≠ "" → OrderRouter.statusOf s = Some st →
  OrderRouter.patchStatus u id s db
  = match db !! id with
    | None => (Http.fail 404 "Order not found", db)
    | Some o =>
        if decide (Order.userId o ≠ u) then (Http.fail 403 "Unauthorized", db)
        else (Http.json (Order.set_status st o), <[id := Order.set_status st o]> db)
    end.
Proof.
  intros Hid Hs. unfold OrderRouter.patchStatus.
  rewrite decide_False by exact Hid. rewrite Hs. reflexivity.
Qed.

Lemma patchStatus_invalid (u id s : string) (db : gmap string Order.t) :
  id = "" ∨ OrderRouter.statusOf s = None →
  Http.status (OrderRouter.patchStatus u id s db).1 = 400 ∧
  (OrderRouter.patchStatus u id s db).2 = db.
Proof.
  unfold OrderRouter.patchStatus. intros [Hid|Hs].
  - rewrite decide_True by exact Hid.
    destruct (OrderRouter.statusOf s); split; reflexivity.
  - rewrite Hs. destruct (decide (id = "")); split; reflexivity.
Qed.

(** X15: PATCH /orders/:id/status by the order's owner with one of the four
    status names stores that status whatever the current one (a Delivered
    or Cancelled order can be put back to Processing) and changes no other
    field; any other string answers 400 and writes nothing. *)
Theorem patchStatus_sets_any_status
    (db : gmap string Order.t) (id s : string) (o : Order.t) :
  db !! id = Some o → id ≠ "" →
  (∀ st, OrderRouter.statusOf s = Some st →
     let o' := {| Order.userId := Order.userId o; Order.status := st;
                  Order.paymentStatus := Order.paymentStatus o;
                  Order.total := Order.total o;
                  Order.trackingNumber := Order.trackingNumber o |} in
     OrderRouter.patchStatus (Order.userId o) id s db
     = (Http.json o', <[id := o']> db)) ∧
  (OrderRouter.statusOf s = None →
     Http.status (OrderRouter.patchStatus (Order.userId o) id s db).1 = 400 ∧
     (OrderRouter.patchStatus (Order.userId o) id s db).2 = db) ∧
  (OrderRouter.statusOf s = None ↔
     s ≠ "Processing" ∧ s ≠ "In Transit" ∧ s ≠ "Delivered" ∧ s ≠ "Cancelled").
Proof.
  intros Ho Hid. split; [|split; [|split]].
  - intros st Hs o'. rewrite (patchStatus_valid _ _ _ _ _ Hid Hs), Ho.
    rewrite decide_False by (intros H; apply H; reflexivity). reflexivity.
  - intros Hs. apply patchStatus_invalid. right. exact Hs.
  - unfold OrderRouter.statusOf. repeat case_decide; try discriminate. auto.
  - intros (H1 & H2 & H3 & H4). unfold OrderRouter.statusOf.
    rewrite !decide_False by assumption. reflexivity.
Qed.

Lemma patchStatus_sets_any_status_witness :
  OrderRouter.patchStatus "u1" "o1" "Processing"
    {[ "o1" := Examples.order "u1" Order.Delivered ]}
  = (Http.json (Examples.order "u1" Order.Processing),
     <[ "o1" := Examples.order "u1" Order.Processing ]>
       {[ "o1" := Examples.order "u1" Order.Delivered ]}).
Proof.
  destruct (patchStatus_sets_any_status
              {[ "o1" := Examples.order "u1" Order.Delivered ]}
              "o1" "Processing" (Examples.order "u1" Order.Delivered))
    as (Hset & _).
  - apply lookup_singleton_eq.
  - discriminate.
  - apply (Hset Order.Processing). reflexivity.
Defined.

(** X16: on every collection, for every caller and non-empty identifier,
    the cancel route answers and stores exactly what the status route does
    with status "Cancelled", except for an order that exists, belongs to
    the caller and is Delivered: there the cancel route refuses with 400
    while the status route stores Cancelled. *)
Theorem cancel_versus_patchStatus
    (u id : string) (db : gmap string Order.t) :
  id ≠ "" →
  ((∀ o, db !! id = Some o → Order.userId o = u →
         Order.status o ≠ Order.Delivered) →
   OrderRouter.cancel u id db = OrderRouter.patchStatus u id "Cancelled" db) ∧
  (∀ o, db !! id = Some o → Order.userId o = u →
        Order.status o = Order.Delivered →
        OrderRouter.cancel u id db
        = (Http.fail 400 "Cannot cancel a delivered order", db) ∧
        OrderRouter.patchStatus u id "Cancelled" db
        = (Http.json (Order.set_status Order.Cancelled o),
           <[id := Order.set_status Order.Cancelled o]> db)).
Proof.
  intros Hid.
  rewrite (patchStatus_valid u id "Cancelled" Order.Cancelled db Hid eq_refl).
  unfold OrderRouter.cancel. split.
  - intros Hnd. destruct (db !! id) as [o|]; [|reflexivity].
    destruct (decide (Order.userId o ≠ u)) as [Hu|Hu]; [reflexivity|].
    rewrite decide_False; [reflexivity|].
    apply Hnd; [reflexivity|]. destruct (decide (Order.userId o = u)); tauto.
  - intros o Ho Hu Hd. rewrite Ho.
    repeat case_decide; try congruence. split; reflexivity.
Qed.

Lemma cancel_versus_patchStatus_witness :
  OrderRouter.cancel "u1" "o1" {[ "o1" := Examples.order "u1" Order.InTransit ]}
  = OrderRouter.patchStatus "u1" "o1" "Cancelled"
      {[ "o1" := Examples.order "u1" Order.InTransit ]} ∧
  Http.status (OrderRouter.patchStatus "u1" "o1" "Cancelled"
                 {[ "o1" := Examples.order "u1" Order.Delivered ]}).1 = 200.
Proof.
  split.
  - destruct (cancel_versus_patchStatus "u1" "o1"
                {[ "o1" := Examples.order "u1" Order.InTransit ]})
      as (Hsame & _); [discriminate|].
    apply Hsame. intros o Ho _.
    rewrite lookup_singleton_eq in Ho. injection Ho as <-. discriminate.
  - destruct (cancel_versus_patchStatus "u1" "o1"
                {[ "o1" := Examples.order "u1" Order.Delivered ]})
      as (_ & Hdelivered); [discriminate|].
    destruct (Hdelivered (Examples.order "u1" Order.Delivered)) as (_ & ->);
      [apply lookup_singleton_eq|reflexivity|reflexivity|reflexivity].
Defined.

(** X17: a caller who is not the owner of a stored order gets 403
    "Unauthorized" from the read, status and cancel routes alike (the status
    route only after its 400 for a malformed request), and none of them
    writes anything; the read route answers the order to its owner only. *)
Theorem order_routes_owner_only
    (u id s : string) (o : Order.t) (db : gmap string Order.t) :
  db !! id = Some o →
  (Order.userId o ≠ u →
     OrderRouter.getOrder u id db = Http.fail 403 "Unauthorized" ∧
     OrderRouter.cancel u id db = (Http.fail 403 "Unauthorized", db) ∧
     (OrderRouter.patchStatus u id s db).2 = db ∧
     (id ≠ "" → OrderRouter.statusOf s ≠ None →
        OrderRouter.patchStatus u id s db = (Http.fail 403 "Unauthorized", db))) ∧
  (OrderRouter.getOrder u id db = Http.json o ↔ Order.userId o = u).
Proof.
  intros Ho. split.
  - intros Hu. repeat apply conj.
    + unfold OrderRouter.getOrder. rewrite Ho, decide_True by exact Hu.
      reflexivity.
    + unfold OrderRouter.cancel. rewrite Ho, decide_True by exact Hu.
      reflexivity.
    + destruct (decide (id = "")) as [Hid|Hid].
      { apply patchStatus_invalid. left. exact Hid. }
      destruct (OrderRouter.statusOf s) as [st|] eqn:Hs.
      * rewrite (patchStatus_valid _ _ _ _ _ Hid Hs), Ho.
        rewrite decide_True by exact Hu. reflexivity.
      * apply patchStatus_invalid. right. exact Hs.
    + intros Hid Hs. destruct (OrderRouter.statusOf s) as [st|] eqn:Hst;
        [|contradiction].
      rewrite (patchStatus_valid _ _ _ _ _ Hid Hst), Ho.
      rewrite decide_True by exact Hu. reflexivity.
  - unfold OrderRouter.getOrder. rewrite Ho.
    destruct (decide (Order.userId o ≠ u)) as [Hu|Hu]; split.
    + discriminate.
    + intros H. contradiction.
    + intros _. destruct (decide (Order.userId o = u)); tauto.
    + reflexivity.
Qed.

Lemma order_routes_owner_only_witness :
  OrderRouter.getOrder "u2" "o1" {[ "o1" := Examples.order "u1" Order.Processing ]}
  = Http.fail 403 "Unauthorized" ∧
  OrderRouter.patchStatus "u2" "o1" "Delivered"
    {[ "o1" := Examples.order "u1" Order.Processing ]}
  = (Http.fail 403 "Unauthorized",
     {[ "o1" := Examples.order "u1" Order.Processing ]}).
Proof.
  destruct (order_routes_owner_only "u2" "o1" "Delivered"
              (Examples.order "u1" Order.Processing)
              {[ "o1" := Examples.order "u1" Order.Processing ]})
    as (Hother & _); [apply lookup_singleton_eq|].
  destruct Hother as (Hget & _ & _ & Hpatch); [discriminate|].
  split; [exact Hget|]. apply Hpatch; discriminate.
Defined.

(** X18: cancelling is idempotent: calling the cancel route again with the
    same caller and identifier gives the same answer and leaves the
    collection as the first call left it. *)
Theorem cancel_idempotent (u id : string) (db : gmap string Order.t) :
  OrderRouter.cancel u id (OrderRouter.cancel u id db).2
  = OrderRouter.cancel u id db.
Proof.
  destruct (db !! id) as [o|] eqn:Ho.
  2:{ unfold OrderRouter.cancel. rewrite Ho. cbn [snd]. rewrite Ho. reflexivity. }
  destruct (decide (Order.userId o ≠ u)) as [Hu|Hu].
  { assert (H : OrderRouter.cancel u id db = (Http.fail 403 "Unauthorized", db)).
    { unfold OrderRouter.cancel. rewrite Ho.
      case_decide; [reflexivity|contradiction]. }
    rewrite H. exact H. }
  destruct (Order.Status_eq_dec (Order.status o) Order.Delivered) as [Hd|Hd].
  { assert (H : OrderRouter.cancel u id db
                = (Http.fail 400 "Cannot cancel a delivered order", db)).
    { unfold OrderRouter.cancel. rewrite Ho.
      repeat case_decide; try contradiction; reflexivity. }
    rewrite H. exact H. }
  assert (H : OrderRouter.cancel u id db
              = (Http.json (Order.set_status Order.Cancelled o),
                 <[id := Order.set_status Order.Cancelled o]> db)).
  { unfold OrderRouter.cancel. rewrite Ho.
    repeat case_decide; try contradiction; reflexivity. }
  rewrite H. cbn [snd]. unfold OrderRouter.cancel. rewrite lookup_insert_eq.
  repeat case_decide; try contradiction; try discriminate.
  rewrite insert_insert_eq. reflexivity.
Qed.

Lemma order_kept_same (id : string) (db : gmap string Order.t) :
  Spec.order_kept id db db.
Proof. repeat split; eauto 10. Qed.

Lemma order_kept_set
    (id : string) (st : Order.Status) (o : Order.t) (db : gmap string Order.t) :
  db !! id = Some o →
  Spec.order_kept id db (<[id := Order.set_status st o]> db).
Proof.
  intros Ho. repeat split.
  - intros id' Hne. apply lookup_insert_ne. congruence.
  - congruence.
  - intros o0 Ho0. rewrite Ho in Ho0. injection Ho0 as <-.
    eexists. split; [apply lookup_insert_eq|]. repeat split.
Qed.

(** X19: the cancel and status routes never create or delete an order,
    never touch an order other than the one named, and never change the
    owner, total, payment status or tracking number of the one named,
    whoever calls them and whatever they answer. *)
Theorem order_routes_preserve
    (u id s : string) (db : gmap string Order.t) :
  Spec.order_kept id db (OrderRouter.cancel u id db).2 ∧
  Spec.order_kept id db (OrderRouter.patchStatus u id s db).2.
Proof.
  split.
  - unfold OrderRouter.cancel. destruct (db !! id) as [o|] eqn:Ho.
    + repeat case_decide; cbn [snd];
        [apply order_kept_same|apply order_kept_same|].
      apply order_kept_set. exact Ho.
    + apply order_kept_same.
  - destruct (decide (id = "")) as [Hid|Hid].
    { rewrite (proj2 (patchStatus_invalid u id s db (or_introl Hid))).
      apply order_kept_same. }
    destruct (OrderRouter.statusOf s) as [st|] eqn:Hs.
    2:{ rewrite (proj2 (patchStatus_invalid u id s db (or_intror Hs))).
        apply order_kept_same. }
    rewrite (patchStatus_valid _ _ _ _ _ Hid Hs).
    destruct (db !! id) as [o|] eqn:Ho.
    + case_decide; cbn [snd]; [apply order_kept_same|].
      apply order_kept_set. exact Ho.
    + apply order_kept_same.
Qed.

(** * How the cart operations compose *)

Lemma delete_last (l : list item) (x : item) : delete (length l) (l ++ [x]) = l.
Proof. induction l as [|y l IH]; simpl; [reflexivity|]. f_equal. exact IH. Qed.

(** X20: adding a product the cart does not hold and then removing it
    brings the item list back: both calls return, and the cart they leave is
    the original one with its totals recomputed. *)
Theorem addItem_then_removeItem
    (c : cart) (p : Product.t) (q : option float) :
  Forall (λ i, product i ≠ Product._id p) (items c) →
  ∃ c1 c2,
    addItem p q c = (Return c1, c1) ∧
    removeItem (Product._id p) c1 = (Return c2, c2) ∧
    items c2 = items c ∧
    calculateTotals c = (Return c2, c2).
Proof.
  intros Habs. apply findIndex_absent in Habs.
  set (x := {| product := Product._id p; name := Product.name p;
               price := Product.price p;
               discountedPrice :=
                 JS.or (Product.discountedPrice p) (Product.price p);
               quantity := default 1%float q; image := Product.image p |}).
  set (c1 := Spec.priced (set_items (items c ++ [x]) c)).
  assert (H1 : addItem p q c = (Return c1, c1)).
  { rewrite addItem_run, Habs. reflexivity. }
  assert (Hk : findIndex (Product._id p) (items c1)
               = Z.of_nat (length (items c)))
    by (apply findIndex_app_new; [exact Habs|reflexivity]).
  exists c1, (Spec.priced c). split; [exact H1|]. split.
  { rewrite removeItem_present by (rewrite Hk; lia). rewrite Hk.
    unfold splice1. rewrite Nat2Z.id. cbn [c1 Spec.priced set_items items].
    rewrite delete_last. reflexivity. }
  split; [reflexivity|]. apply calculateTotals_run.
Qed.

Lemma addItem_then_removeItem_witness :
  ∃ c1 c2,
    addItem (Examples.goods "c" 7 0) (Some 2%float) Examples.basket = (Return c1, c1) ∧
    removeItem "c" c1 = (Return c2, c2) ∧
    items c2 = items Examples.basket ∧
    calculateTotals Examples.basket = (Return c2, c2).
Proof.
  apply (addItem_then_removeItem Examples.basket (Examples.goods "c" 7 0)
           (Some 2%float)).
  repeat constructor; simpl; discriminate.
Defined.

Lemma findIndex_products (pid : string) (l l' : list item) :
  product <$> l = product <$> l' → findIndex pid l = findIndex pid l'.
Proof.
  unfold findIndex. revert l'.
  induction l as [|x l IH]; intros [|x' l'] Heq; try discriminate; [reflexivity|].
  injection Heq as Hx Hl. simpl. rewrite Hx.
  destruct (decide (product x' = pid)); [reflexivity|].
  specialize (IH l' Hl).
  destruct (list_find (λ i, product i = pid) l) as [[k y]|];
    destruct (list_find (λ i, product i = pid) l') as [[k' y']|];
    simpl in *; try lia; f_equal; lia.
Qed.

Lemma delete_alter (f : item → item) (l : list item) (k : nat) :
  delete k (alter f k l) = delete k l.
Proof.
  revert k. induction l as [|x l IH]; intros [|k]; simpl; try reflexivity.
  f_equal. apply IH.
Qed.

(** X21: the last quantity written wins: after an [updateItemQuantity] that
    did not remove the line (its quantity was not zero or less), a second
    [updateItemQuantity] for the same product gives exactly the result it
    would have given on the original cart; in particular setting the same
    quantity twice is the same as setting it once. *)
Theorem updateItemQuantity_last_wins
    (c : cart) (pid : string) (q1 q2 : float) :
  (q1 <=? 0)%float = false →
  updateItemQuantity pid q2 (updateItemQuantity pid q1 c).2
  = updateItemQuantity pid q2 c.
Proof.
  intros Hq1.
  destruct (decide (findIndex pid (items c) = (-1)%Z)) as [E|E].
  { rewrite (updateItemQuantity_absent _ q1 _ E). reflexivity. }
  rewrite (updateItemQuantity_present _ q1 _ E), Hq1. cbn [snd].
  set (k := findIndex pid (items c)) in *.
  assert (Hk : findIndex pid
                 (items (Spec.priced
                    (set_items (alter (set_quantity q1) (Z.to_nat k) (items c)) c)))
               = k).
  { cbn [Spec.priced set_items items]. apply findIndex_products.
    apply products_alter. reflexivity. }
  rewrite !updateItemQuantity_present by (rewrite ?Hk; exact E).
  rewrite Hk. fold k. cbn [Spec.priced set_items items].
  unfold splice1. rewrite delete_alter, list_alter_alter_eq.
  destruct (q2 <=? 0)%float; reflexivity.
Qed.

Lemma updateItemQuantity_last_wins_witness :
  updateItemQuantity "a" 4 (updateItemQuantity "a" 9 Examples.basket).2
  = updateItemQuantity "a" 4 Examples.basket.
Proof.
  apply (updateItemQuantity_last_wins Examples.basket "a" 9 4). reflexivity.
Defined.

(** ** Applying a coupon again *)

Lemma priced_subtotal (x : cart) :
  subtotal (Spec.priced x) = Spec.subtotal_of (items x).
Proof. reflexivity. Qed.

Lemma priced_shipping (x : cart) :
  shippingCost (Spec.priced x) = Spec.shipping_of (Spec.subtotal_of (items x)).
Proof. reflexivity. Qed.

Lemma applyCoupon_WELCOME10_run (u : string) (db : gmap string cart) :
  let c := (findOrCreateByUser u db).1 in
  let c' := Spec.priced
              (set_couponDiscount (Spec.round2 (subtotal c * 0.1)%float)
                 (set_couponCode (Some "WELCOME10") c)) in
  CartRouter.applyCoupon u "WELCOME10" db = (Http.json c', <[u := c']> db).
Proof.
  intros c c'. subst c c'. unfold CartRouter.applyCoupon.
  rewrite decide_False by discriminate.
  pose proof (λ c', save_after_findOrCreate u c' db) as Hs.
  destruct (findOrCreateByUser u db) as [c db1]. cbn [fst snd] in *.
  rewrite decide_True by reflexivity. cbv zeta.
  rewrite calculateTotals_run. cbn [snd]. rewrite Hs. reflexivity.
Qed.

Lemma applyCoupon_FREESHIP_run (u : string) (db : gmap string cart) :
  let c := (findOrCreateByUser u db).1 in
  let c' := Spec.priced
              (set_couponDiscount (shippingCost c)
                 (set_couponCode (Some "FREESHIP") c)) in
  CartRouter.applyCoupon u "FREESHIP" db = (Http.json c', <[u := c']> db).
Proof.
  intros c c'. subst c c'. unfold CartRouter.applyCoupon.
  rewrite decide_False by discriminate.
  pose proof (λ c', save_after_findOrCreate u c' db) as Hs.
  destruct (findOrCreateByUser u db) as [c db1]. cbn [fst snd] in *.
  rewrite decide_False by discriminate.
  rewrite decide_True by reflexivity. cbv zeta.
  rewrite calculateTotals_run. cbn [snd]. rewrite Hs. reflexivity.
Qed.

(** X22: applying WELCOME10 a second time changes nothing when the stored
    subtotal was that of the items, and applying FREESHIP a second time
    changes nothing when the stored shipping cost was the one the pricing
    rule gives.  The cart of a new user stores a shipping cost of 0, which
    the rule does not give: there FREESHIP first discounts 0 (total 5.99)
    and, applied again, discounts 5.99 (total 0). *)
Theorem applyCoupon_again (u : string) (db : gmap string cart) :
  (subtotal (findOrCreateByUser u db).1
   = Spec.subtotal_of (items (findOrCreateByUser u db).1) →
   CartRouter.applyCoupon u "WELCOME10"
     (CartRouter.applyCoupon u "WELCOME10" db).2
   = CartRouter.applyCoupon u "WELCOME10" db) ∧
  (shippingCost (findOrCreateByUser u db).1
   = Spec.shipping_of (Spec.subtotal_of (items (findOrCreateByUser u db).1)) →
   CartRouter.applyCoupon u "FREESHIP"
     (CartRouter.applyCoupon u "FREESHIP" db).2
   = CartRouter.applyCoupon u "FREESHIP" db) ∧
  (db !! u = None →
   ∃ c1 c2,
     CartRouter.applyCoupon u "FREESHIP" db = (Http.json c1, <[u := c1]> db) ∧
     couponDiscount c1 = 0%float ∧ total c1 = 5.99%float ∧
     CartRouter.applyCoupon u "FREESHIP" (<[u := c1]> db)
     = (Http.json c2, <[u := c2]> db) ∧
     couponDiscount c2 = 5.99%float ∧ total c2 = 0%float).
Proof.
  split; [|split].
  - intros Hfresh. rewrite (applyCoupon_WELCOME10_run u db). cbv zeta. cbn [snd].
    rewrite applyCoupon_WELCOME10_run. cbv zeta.
    rewrite (findOrCreate_found u _ _ (lookup_insert_eq _ _ _)). cbn [fst].
    rewrite insert_insert_eq, priced_subtotal.
    cbn [items set_couponDiscount set_couponCode]. rewrite <- Hfresh.
    reflexivity.
  - intros Hfresh. rewrite (applyCoupon_FREESHIP_run u db). cbv zeta. cbn [snd].
    rewrite applyCoupon_FREESHIP_run. cbv zeta.
    rewrite (findOrCreate_found u _ _ (lookup_insert_eq _ _ _)). cbn [fst].
    rewrite insert_insert_eq, priced_shipping.
    cbn [items set_couponDiscount set_couponCode]. rewrite <- Hfresh.
    reflexivity.
  - intros Hu. eexists. eexists.
    split; [apply applyCoupon_FREESHIP_run|].
    unfold findOrCreateByUser. rewrite Hu. cbn [fst].
    split; [reflexivity|]. split; [reflexivity|].
    split.
    + rewrite applyCoupon_FREESHIP_run. cbv zeta.
      rewrite (findOrCreate_found u _ _ (lookup_insert_eq _ _ _)).
      rewrite insert_insert_eq. reflexivity.
    + split; reflexivity.
Qed.

Lemma applyCoupon_again_witness :
  CartRouter.applyCoupon "u1" "WELCOME10"
    (CartRouter.applyCoupon "u1" "WELCOME10"
       {[ "u1" := (calculateTotals Examples.basket).2 ]}).2
  = CartRouter.applyCoupon "u1" "WELCOME10"
      {[ "u1" := (calculateTotals Examples.basket).2 ]} ∧
  (∃ c1 c2,
     CartRouter.applyCoupon "u2" "FREESHIP" Examples.carts
     = (Http.json c1, <[ "u2" := c1 ]> Examples.carts) ∧
     total c1 = 5.99%float ∧
     CartRouter.applyCoupon "u2" "FREESHIP" (<[ "u2" := c1 ]> Examples.carts)
     = (Http.json c2, <[ "u2" := c2 ]> Examples.carts) ∧
     total c2 = 0%float).
Proof.
  split.
  - destruct (applyCoupon_again "u1"
                {[ "u1" := (calculateTotals Examples.basket).2 ]}) as (Hw & _).
    apply Hw.
    rewrite (findOrCreate_found "u1" (calculateTotals Examples.basket).2)
      by apply lookup_singleton_eq.
    reflexivity.
  - destruct (applyCoupon_again "u2" Examples.carts) as (_ & _ & Hnew).
    destruct Hnew as (c1 & c2 & H1 & _ & Ht1 & H2 & _ & Ht2); [reflexivity|].
    exists c1, c2. repeat split; assumption.
Defined.
